(** * K65TWR_TSI: touch-sensor driver, shallow embedding and properties

    Embedding of [board/K65TWR_TSI.c].  The module keeps its state in
    file-scope statics; here they are the fields of one record that every
    function takes and returns.  The sensor peripheral and the kernel are
    outside the file: their answers (the DATA register read after a scan,
    the error codes of the kernel calls, what the scanning task does while
    a consumer is blocked) enter the functions as arguments, and the calls
    made to them are recorded, in program order, in a log.  The
    end-of-scan flag of the peripheral is read off that log. *)

From Stdlib Require Import ZArith List Bool Lia.
From stdpp Require Import base list.
Import ListNotations.
Local Open Scope Z_scope.

(** ** Integer types of MCUType.h *)

Definition to_INT8U (z : Z) : Z := z mod 2 ^ 8.
Definition to_INT16U (z : Z) : Z := z mod 2 ^ 16.

(** ** Types of the module *)

(** [typedef enum {PROC1START2, PROC2START1} TSI_TASK_STATE_T].  The
    variable is carried as the underlying integer, so that the [default]
    branch of the switch in [TSITask] has values to run on. *)
Definition TSI_TASK_STATE_T : Type := Z.
Definition PROC1START2 : TSI_TASK_STATE_T := 0.
Definition PROC2START1 : TSI_TASK_STATE_T := 1.

Record TOUCH_LEVEL_T : Type := mkLevel {
  baseline : Z;
  offset : Z;
  threshold : Z
}.

(** Modelled from the spec: the kernel's semaphore object [OS_SEM], of
    which only the number of pending notifications matters here. *)
Record OS_SEM : Type := mkSem { Ctr : Z }.

Record TSI_BUFFER : Type := mkBuffer {
  buffer : Z;
  flag : OS_SEM
}.

(** Modelled from the spec: the kernel's status codes [OS_ERR]; the module
    only ever compares against [OS_ERR_NONE]. *)
Inductive OS_ERR : Type :=
| OS_ERR_NONE
| OS_ERR_TIMEOUT
| OS_ERR_OTHER (code : Z).

Definition is_OS_ERR_NONE (e : OS_ERR) : bool :=
  match e with OS_ERR_NONE => true | _ => false end.

Definition MAX_NUM_ELECTRODES : Z := 16.
Definition E1_TOUCH_OFFSET : Z := 0x0400.
Definition E2_TOUCH_OFFSET : Z := 0x0400.

(** Constants of headers that are not part of the file: the two pad
    channels of [K65TWR_TSI.h] and the count mask of the device header. *)
Class Board : Type := mkBoard {
  BRD_PAD1_CH : Z;
  BRD_PAD2_CH : Z;
  TSI_DATA_TSICNT_MASK : Z
}.

(** Calls that leave the module, in program order. *)
Inductive io_event : Type :=
| EvStartScan (channel : Z)
    (* tsiStartScan: channel written to TSI0->DATA, software trigger set *)
| EvScanRead (channel : Z) (count : Z)
    (* end-of-scan flag awaited and cleared, count read, on behalf of
       [channel] (calibration or processing) *)
| EvSemPost.
    (* OSSemPost on tsiBuffer.flag *)

(** The file-scope statics, and the log. *)
Record tsi_state : Type := mkState {
  tsiSensorLevels : list TOUCH_LEVEL_T;
  tsiBuffer : TSI_BUFFER;
  tsiSensorFlags : Z;
  tsiTaskState : TSI_TASK_STATE_T;
  io_log : list io_event
}.

(** Static storage as the C start-up code leaves it. *)
Definition zero_level : TOUCH_LEVEL_T := mkLevel 0 0 0.

Definition initial_state : tsi_state :=
  mkState (replicate (Z.to_nat MAX_NUM_ELECTRODES) zero_level)
          (mkBuffer 0 (mkSem 0)) 0 PROC1START2 [].

(** ** Results

    An index past the end of [tsiSensorLevels] is undefined in C; the
    error trap of [TSIInit] and the waits for the end of a scan may spin
    for ever.  Both are results of their own: [OutOfFuel] is a loop that
    is still spinning when the turns granted to it are used up, or that
    no number of turns lets through. *)
Inductive result (A : Type) : Type :=
| Ok (a : A)
| OutOfBounds
| OutOfFuel.
Arguments Ok {A} a.
Arguments OutOfBounds {A}.
Arguments OutOfFuel {A}.

Definition bind {A B : Type} (r : result A) (k : A -> result B) : result B :=
  match r with
  | Ok a => k a
  | OutOfBounds => OutOfBounds
  | OutOfFuel => OutOfFuel
  end.

Notation "'let*' x ':=' r 'in' k" := (bind r (fun x => k))
  (at level 10, x name, r at level 100, k at level 200).

(** ** Field updates *)

Definition log_event (e : io_event) (st : tsi_state) : tsi_state :=
  mkState (tsiSensorLevels st) (tsiBuffer st) (tsiSensorFlags st)
          (tsiTaskState st) (io_log st ++ [e]).

Definition set_levels (ls : list TOUCH_LEVEL_T) (st : tsi_state) : tsi_state :=
  mkState ls (tsiBuffer st) (tsiSensorFlags st) (tsiTaskState st) (io_log st).

Definition set_buffer (b : TSI_BUFFER) (st : tsi_state) : tsi_state :=
  mkState (tsiSensorLevels st) b (tsiSensorFlags st) (tsiTaskState st) (io_log st).

Definition set_flags (f : Z) (st : tsi_state) : tsi_state :=
  mkState (tsiSensorLevels st) (tsiBuffer st) f (tsiTaskState st) (io_log st).

Definition set_task_state (s : TSI_TASK_STATE_T) (st : tsi_state) : tsi_state :=
  mkState (tsiSensorLevels st) (tsiBuffer st) (tsiSensorFlags st) s (io_log st).

(** [tsiSensorLevels[channel]] as an rvalue. *)
Definition level_at (channel : Z) (st : tsi_state) : result TOUCH_LEVEL_T :=
  match tsiSensorLevels st !! Z.to_nat channel with
  | Some l => Ok l
  | None => OutOfBounds
  end.

(** ** The end-of-scan flag

    The flag lives in the peripheral.  A software trigger makes the
    peripheral raise it when the scan is done, and it stays up until the
    driver clears it, which it does after each wait, just before it reads
    the count.  So the flag is up, or on its way up, exactly when a scan
    has been started since the last read. *)
Fixpoint eosf_due_after (due : bool) (evs : list io_event) : bool :=
  match evs with
  | [] => due
  | EvStartScan _ :: rest => eosf_due_after true rest
  | EvScanRead _ _ :: rest => eosf_due_after false rest
  | EvSemPost :: rest => eosf_due_after due rest
  end.

Definition scan_due (st : tsi_state) : bool :=
  eosf_due_after false (io_log st).

(** The busy wait [while((TSI0->GENCS & TSI_GENCS_EOSF_MASK) == 0){}]:
    the body is empty, so the loop is left when the peripheral raises the
    flag and spins for ever when no scan is there to raise it. *)
Definition await_scan (st : tsi_state) : result tsi_state :=
  if scan_due st then Ok st else OutOfFuel.

(** ** Kernel services *)

(** Modelled from the spec: [OSSemCreate], which sets the count of a new
    semaphore and reports a status chosen by the kernel. *)
Definition OSSemCreate (cnt : Z) : OS_SEM := mkSem cnt.

(** Modelled from the spec: [OSSemPost] on a binary notification: "posting
    when one notification is already pending is a no-op, never
    accumulates". *)
Definition OSSemPost (s : OS_SEM) : OS_SEM :=
  if 0 <? Ctr s then s else mkSem 1.

(** ** Functions of the module *)

Section Driver.
Context {board : Board}.

(** [(INT16U)(TSI0->DATA & TSI_DATA_TSICNT_MASK)] for a register value. *)
Definition raw_count (data : Z) : Z :=
  to_INT16U (Z.land data TSI_DATA_TSICNT_MASK).

(** [tsiStartScan]: both writes go to the peripheral. *)
Definition tsiStartScan (channel : Z) (st : tsi_state) : tsi_state :=
  log_event (EvStartScan channel) st.

(** [TSIChCalibration].  [data] is what TSI0->DATA reads once the
    end-of-scan flag is up; [EvScanRead] stands for the clearing of the
    flag and the read of the count that follow the wait. *)
Definition TSIChCalibration (channel : Z) (data : Z) (st : tsi_state)
  : result tsi_state :=
  let st1 := tsiStartScan channel st in
  let* st1 := await_scan st1 in
  let st2 := log_event (EvScanRead channel (raw_count data)) st1 in
  let* l := level_at channel st2 in
  let l1 := mkLevel (raw_count data) (offset l) (threshold l) in
  let l2 := mkLevel (baseline l1) (offset l1)
                    (to_INT16U (baseline l1 + offset l1)) in
  Ok (set_levels (<[Z.to_nat channel := l2]> (tsiSensorLevels st2)) st2).

(** [tsiProcScan].  [data] as in [TSIChCalibration]. *)
Definition tsiProcScan (channel : Z) (data : Z) (st : tsi_state)
  : result tsi_state :=
  let* st := await_scan st in
  let st1 := log_event (EvScanRead channel (raw_count data)) st in
  let* l := level_at channel st1 in
  let mask := to_INT16U (Z.shiftl 1 channel) in
  let st2 :=
    if threshold l <? raw_count data
    then set_flags (to_INT16U (Z.lor (tsiSensorFlags st1) mask)) st1
    else set_flags (to_INT16U (Z.land (tsiSensorFlags st1) mask)) st1 in
  if negb (buffer (tsiBuffer st2) =? tsiSensorFlags st2)
  then
    let st3 := set_buffer (mkBuffer (to_INT8U (tsiSensorFlags st2))
                                    (flag (tsiBuffer st2))) st2 in
    Ok (log_event EvSemPost
          (set_buffer (mkBuffer (buffer (tsiBuffer st3))
                                (OSSemPost (flag (tsiBuffer st3)))) st3))
  else Ok st2.

(** One turn of the [while(1)] of [TSITask], after the delay has run out.
    The debug-bit macros touch GPIO only. *)
Definition TSITask_period (data : Z) (st : tsi_state) : result tsi_state :=
  let st1 := tsiStartScan BRD_PAD1_CH st in
  if tsiTaskState st1 =? PROC1START2 then
    let* st2 := tsiProcScan BRD_PAD1_CH data st1 in
    Ok (set_task_state PROC2START1 (tsiStartScan BRD_PAD2_CH st2))
  else if tsiTaskState st1 =? PROC2START1 then
    let* st2 := tsiProcScan BRD_PAD2_CH data st1 in
    Ok (set_task_state PROC1START2 (tsiStartScan BRD_PAD1_CH st2))
  else
    Ok (set_task_state PROC1START2 st1).

(** [TSITask] for as many periods as there are register readings. *)
Fixpoint TSITask (datas : list Z) (st : tsi_state) : result tsi_state :=
  match datas with
  | [] => Ok st
  | data :: rest => let* st1 := TSITask_period data st in TSITask rest st1
  end.

(** The error trap [while(os_err != OS_ERR_NONE){}]: the body is empty, so
    a turn changes nothing. *)
Fixpoint error_trap (fuel : nat) (os_err : OS_ERR) (st : tsi_state)
  : result tsi_state :=
  match fuel with
  | O => OutOfFuel
  | S fuel' =>
      if negb (is_OS_ERR_NONE os_err) then error_trap fuel' os_err st
      else Ok st
  end.

(** [TSIInit].  The clock, pin and GENCS writes configure the peripheral
    only.  [data1], [data2] are the readings of the two calibration scans;
    [sem_err] and [task_err] are what the kernel stores in [os_err] on
    [OSSemCreate] and [OSTaskCreate]. *)
Definition TSIInit (fuel : nat) (data1 data2 : Z) (sem_err task_err : OS_ERR)
    (st : tsi_state) : result tsi_state :=
  let* l1 := level_at BRD_PAD1_CH st in
  let st1 := set_levels (<[Z.to_nat BRD_PAD1_CH :=
               mkLevel (baseline l1) E1_TOUCH_OFFSET (threshold l1)]>
               (tsiSensorLevels st)) st in
  let* l2 := level_at BRD_PAD2_CH st1 in
  let st2 := set_levels (<[Z.to_nat BRD_PAD2_CH :=
               mkLevel (baseline l2) E2_TOUCH_OFFSET (threshold l2)]>
               (tsiSensorLevels st1)) st1 in
  let* st3 := TSIChCalibration BRD_PAD1_CH data1 st2 in
  let* st4 := TSIChCalibration BRD_PAD2_CH data2 st3 in
  let st5 := set_buffer (mkBuffer (to_INT8U 0x00) (flag (tsiBuffer st4))) st4 in
  let st6 := set_buffer (mkBuffer (buffer (tsiBuffer st5)) (OSSemCreate 0)) st5 in
  let os_err := sem_err in
  let os_err := task_err in
  error_trap fuel os_err st6.

(** What the scanning task does during one tick in which a consumer is
    blocked: nothing, or one period with the given register reading. *)
Definition run_tick (tk : option Z) (st : tsi_state) : result tsi_state :=
  match tk with
  | None => Ok st
  | Some data => TSITask_period data st
  end.

(** Modelled from the spec: [OSSemPend] with a time-out, the kernel's
    blocking wait: it "blocks the calling task ... until either a
    notification arrives or timeout elapses".  A pending notification is
    taken at once; otherwise the scanning task runs, tick by tick
    ([sched], idle when the list is used up), until it posts or [ticks]
    ticks have gone by. *)
Fixpoint OSSemPend (ticks : nat) (sched : list (option Z)) (st : tsi_state)
  : result (OS_ERR * tsi_state) :=
  if 0 <? Ctr (flag (tsiBuffer st)) then
    Ok (OS_ERR_NONE,
        set_buffer (mkBuffer (buffer (tsiBuffer st))
                             (mkSem (Ctr (flag (tsiBuffer st)) - 1))) st)
  else
    match ticks with
    | O => Ok (OS_ERR_TIMEOUT, st)
    | S ticks' =>
        let* st1 := run_tick (hd None sched) st in
        OSSemPend ticks' (tl sched) st1
    end.

(** [TSIPend]: the value returned, the status left in [*os_err], and the
    statics afterwards. *)
Definition TSIPend (tout : Z) (sched : list (option Z)) (st : tsi_state)
  : result (Z * OS_ERR * tsi_state) :=
  let* r := OSSemPend (Z.to_nat (to_INT16U tout)) sched st in
  Ok (to_INT16U (buffer (tsiBuffer (snd r))), fst r, snd r).

End Driver.

(** ** Reading the log *)

(** The calls logged between two states of one run. *)
Definition new_events (st st' : tsi_state) : list io_event :=
  drop (length (io_log st)) (io_log st').

Definition is_post (e : io_event) : bool :=
  match e with EvSemPost => true | _ => false end.

(** Number of [OSSemPost] calls in a stretch of the log. *)
Definition count_posts (evs : list io_event) : nat :=
  length (filter (fun e => is_post e = true) evs).

(** Channels whose scan was awaited and evaluated, in order. *)
Fixpoint processed_channels (evs : list io_event) : list Z :=
  match evs with
  | [] => []
  | EvScanRead ch _ :: rest => ch :: processed_channels rest
  | _ :: rest => processed_channels rest
  end.

(** Channels on which a scan was started, in order. *)
Fixpoint started_channels (evs : list io_event) : list Z :=
  match evs with
  | [] => []
  | EvStartScan ch :: rest => ch :: started_channels rest
  | _ :: rest => started_channels rest
  end.

(** Does every start in [evs] come after the processing of another
    channel, [seen] being the channels processed before [evs]? *)
Fixpoint starts_follow_other_processing (seen : list Z) (evs : list io_event)
  : bool :=
  match evs with
  | [] => true
  | EvStartScan ch :: rest =>
      existsb (fun c => negb (c =? ch)) seen
      && starts_follow_other_processing seen rest
  | EvScanRead ch _ :: rest => starts_follow_other_processing (ch :: seen) rest
  | EvSemPost :: rest => starts_follow_other_processing seen rest
  end.

(** Scans started and not awaited yet, at the end of [evs], when [n] were
    so at its beginning. *)
Fixpoint scans_outstanding (n : nat) (evs : list io_event) : nat :=
  match evs with
  | [] => n
  | EvStartScan _ :: rest => scans_outstanding (S n) rest
  | EvScanRead _ _ :: rest => scans_outstanding (Nat.pred n) rest
  | EvSemPost :: rest => scans_outstanding n rest
  end.

(** The value [tsiProcScan] leaves in [tsiSensorFlags], from the level of
    the channel and the flags before the call. *)
Definition working_flags {board : Board} (channel data : Z)
    (l : TOUCH_LEVEL_T) (flags : Z) : Z :=
  if threshold l <? raw_count data
  then to_INT16U (Z.lor flags (to_INT16U (Z.shiftl 1 channel)))
  else to_INT16U (Z.land flags (to_INT16U (Z.shiftl 1 channel))).

(** The electrode processed in period [k], counted from 1, of a run that
    starts in [PROC1START2]. *)
Definition electrode_of_period {board : Board} (k : nat) : Z :=
  if Nat.odd k then BRD_PAD1_CH else BRD_PAD2_CH.

(** The scanning task for [n] ticks, with no consumer involved. *)
Fixpoint run_ticks {board : Board} (n : nat) (sched : list (option Z))
    (st : tsi_state) : result tsi_state :=
  match n with
  | O => Ok st
  | S n' => let* st1 := run_tick (hd None sched) st in run_ticks n' (tl sched) st1
  end.

(** ** Well-formed states *)

(** The level table has its declared size. *)
Definition levels_ok (st : tsi_state) : Prop :=
  length (tsiSensorLevels st) = Z.to_nat MAX_NUM_ELECTRODES.

(** Both pads are channels of the table ("range 0-15"). *)
Definition board_ok (board : Board) : Prop :=
  (0 <= BRD_PAD1_CH < MAX_NUM_ELECTRODES) /\
  (0 <= BRD_PAD2_CH < MAX_NUM_ELECTRODES).

(** Each static holds a value of its C type. *)
Definition typed_state (st : tsi_state) : Prop :=
  0 <= buffer (tsiBuffer st) < 2 ^ 8 /\
  0 <= tsiSensorFlags st < 2 ^ 16.

(** What the scanning task may do to the statics between two states, the
    calls logged in between being [evs]: the level table stays; without a
    post the buffer and its semaphore stay; after a post a notification is
    pending; values keep their C types. *)
Definition scanner_effect (st : tsi_state) (evs : list io_event)
    (st' : tsi_state) : Prop :=
  io_log st' = io_log st ++ evs /\
  tsiSensorLevels st' = tsiSensorLevels st /\
  (count_posts evs = 0%nat -> tsiBuffer st' = tsiBuffer st) /\
  (count_posts evs <> 0%nat -> 0 < Ctr (flag (tsiBuffer st'))) /\
  (typed_state st -> typed_state st').

(** ** Boards and states for worked examples *)

(** Pads on channels 12 and 11, a 16-bit count field. *)
Definition example_board : Board := mkBoard 12 11 0xFFFF.

(** Pads on channels 0 and 1, a 16-bit count field. *)
Definition low_board : Board := mkBoard 0 1 0xFFFF.

(** A level as calibration leaves it on a reading of 1024 with the offset
    0x0400: threshold 2048. *)
Definition example_level : TOUCH_LEVEL_T := mkLevel 1024 1024 2048.

(** The statics when [TSIInit] has returned on [example_board], both
    calibration scans having read 1024: nothing touched, nothing
    published, no notification pending. *)
Definition example_idle : tsi_state :=
  mkState (<[12%nat := example_level]>
             (<[11%nat := example_level]> (tsiSensorLevels initial_state)))
          (mkBuffer 0 (mkSem 0)) 0 PROC1START2
          [EvStartScan 12; EvScanRead 12 1024; EvStartScan 11; EvScanRead 11 1024].

(** The same on [low_board]. *)
Definition low_idle : tsi_state :=
  mkState (<[0%nat := example_level]>
             (<[1%nat := example_level]> (tsiSensorLevels initial_state)))
          (mkBuffer 0 (mkSem 0)) 0 PROC1START2
          [EvStartScan 0; EvScanRead 0 1024; EvStartScan 1; EvScanRead 1 1024].

(** * Properties *)

(** ** Fixed-width arithmetic *)

Lemma to_INT8U_range z : 0 <= to_INT8U z < 2 ^ 8.
Proof. unfold to_INT8U. apply Z.mod_pos_bound. lia. Qed.

Lemma to_INT16U_range z : 0 <= to_INT16U z < 2 ^ 16.
Proof. unfold to_INT16U. apply Z.mod_pos_bound. lia. Qed.

Lemma to_INT16U_small z : 0 <= z < 2 ^ 16 -> to_INT16U z = z.
Proof. intros H. unfold to_INT16U. apply Z.mod_small. exact H. Qed.

Lemma to_INT8U_small z : 0 <= z < 2 ^ 8 -> to_INT8U z = z.
Proof. intros H. unfold to_INT8U. apply Z.mod_small. exact H. Qed.

Lemma to_INT16U_testbit z i :
  Z.testbit (to_INT16U z) i = (i <? 16) && Z.testbit z i.
Proof.
  unfold to_INT16U. destruct (Z.ltb_spec i 0) as [Hneg | Hpos].
  - rewrite !Z.testbit_neg_r by lia. now rewrite andb_false_r.
  - apply Z.testbit_mod_pow2. lia.
Qed.

Lemma to_INT8U_testbit z i :
  Z.testbit (to_INT8U z) i = (i <? 8) && Z.testbit z i.
Proof.
  unfold to_INT8U. destruct (Z.ltb_spec i 0) as [Hneg | Hpos].
  - rewrite !Z.testbit_neg_r by lia. now rewrite andb_false_r.
  - apply Z.testbit_mod_pow2. lia.
Qed.

(** Bit [i] of [(INT16U)(1<<channel)]. *)
Lemma channel_mask_testbit channel i :
  0 <= channel < 16 ->
  Z.testbit (to_INT16U (Z.shiftl 1 channel)) i = (i =? channel).
Proof.
  intros Hch. rewrite to_INT16U_testbit, Z.shiftl_1_l.
  rewrite Z.pow2_bits_eqb by lia.
  destruct (Z.eqb_spec channel i) as [-> | Hne].
  - rewrite Z.eqb_refl, andb_true_r. apply Z.ltb_lt. lia.
  - rewrite andb_false_r. symmetry. apply Z.eqb_neq. congruence.
Qed.

(** ** The log *)

Lemma new_events_app st st' evs :
  io_log st' = io_log st ++ evs -> new_events st st' = evs.
Proof. intros H. unfold new_events. rewrite H. apply drop_app_length. Qed.

Lemma new_events_refl st : new_events st st = [].
Proof. apply new_events_app. now rewrite app_nil_r. Qed.

Lemma count_posts_app evs1 evs2 :
  count_posts (evs1 ++ evs2) = (count_posts evs1 + count_posts evs2)%nat.
Proof. unfold count_posts. now rewrite filter_app, length_app. Qed.

Lemma processed_channels_app evs1 evs2 :
  processed_channels (evs1 ++ evs2) =
  processed_channels evs1 ++ processed_channels evs2.
Proof.
  induction evs1 as [| e evs1 IH]; simpl; [reflexivity |].
  destruct e; simpl; now rewrite IH.
Qed.

Lemma started_channels_app evs1 evs2 :
  started_channels (evs1 ++ evs2) =
  started_channels evs1 ++ started_channels evs2.
Proof.
  induction evs1 as [| e evs1 IH]; simpl; [reflexivity |].
  destruct e; simpl; now rewrite IH.
Qed.

(** ** The end-of-scan flag along the log *)

Lemma eosf_due_after_app evs1 : forall due evs2,
  eosf_due_after due (evs1 ++ evs2) =
  eosf_due_after (eosf_due_after due evs1) evs2.
Proof.
  induction evs1 as [| e evs1 IH]; intros due evs2; simpl; [reflexivity |].
  destruct e; apply IH.
Qed.

Lemma scan_due_log_event e st :
  scan_due (log_event e st) = eosf_due_after (scan_due st) [e].
Proof. unfold scan_due. simpl. apply eosf_due_after_app. Qed.

Lemma await_scan_due st : scan_due st = true -> await_scan st = Ok st.
Proof. intros H. unfold await_scan. now rewrite H. Qed.

Lemma await_scan_idle {A : Type} st (k : tsi_state -> result A) :
  scan_due st = false -> (let* st1 := await_scan st in k st1) = OutOfFuel.
Proof. intros H. unfold await_scan. now rewrite H. Qed.

(** ** [tsiProcScan], case by case *)

Section DriverFacts.
Context {board : Board}.

(** A scan has just been started: the flag is due. *)
Lemma scan_due_tsiStartScan channel st :
  scan_due (tsiStartScan channel st) = true.
Proof. unfold tsiStartScan. now rewrite scan_due_log_event. Qed.

(** The wait comes first: with no scan started since the last read the
    call does not get past it. *)
Lemma tsiProcScan_spins channel data st :
  scan_due st = false -> tsiProcScan channel data st = OutOfFuel.
Proof. intros H. unfold tsiProcScan. now apply await_scan_idle. Qed.

Lemma tsiProcScan_due channel data st st' :
  tsiProcScan channel data st = Ok st' -> scan_due st = true.
Proof.
  intros Hrun. destruct (scan_due st) eqn:Hdue; [reflexivity |].
  rewrite (tsiProcScan_spins _ _ _ Hdue) in Hrun. discriminate.
Qed.

Lemma tsiProcScan_unchanged channel data st l :
  scan_due st = true ->
  tsiSensorLevels st !! Z.to_nat channel = Some l ->
  buffer (tsiBuffer st) = working_flags channel data l (tsiSensorFlags st) ->
  tsiProcScan channel data st =
  Ok (set_flags (working_flags channel data l (tsiSensorFlags st))
        (log_event (EvScanRead channel (raw_count data)) st)).
Proof.
  intros Hdue Hl Heq. unfold tsiProcScan. rewrite (await_scan_due _ Hdue).
  unfold level_at, working_flags in *. simpl.
  rewrite Hl. simpl.
  destruct (threshold l <? raw_count data); simpl;
    rewrite Heq, Z.eqb_refl; reflexivity.
Qed.

Lemma tsiProcScan_changed channel data st l :
  scan_due st = true ->
  tsiSensorLevels st !! Z.to_nat channel = Some l ->
  buffer (tsiBuffer st) <> working_flags channel data l (tsiSensorFlags st) ->
  tsiProcScan channel data st =
  Ok (log_event EvSemPost
        (set_buffer
           (mkBuffer (to_INT8U (working_flags channel data l (tsiSensorFlags st)))
                     (OSSemPost (flag (tsiBuffer st))))
           (set_flags (working_flags channel data l (tsiSensorFlags st))
              (log_event (EvScanRead channel (raw_count data)) st)))).
Proof.
  intros Hdue Hl Hne. apply Z.eqb_neq in Hne.
  unfold tsiProcScan. rewrite (await_scan_due _ Hdue).
  unfold level_at, working_flags in *. simpl.
  rewrite Hl. simpl.
  destruct (threshold l <? raw_count data); simpl;
    rewrite Hne; reflexivity.
Qed.

Lemma tsiProcScan_total channel data st l :
  scan_due st = true ->
  tsiSensorLevels st !! Z.to_nat channel = Some l ->
  exists st', tsiProcScan channel data st = Ok st'.
Proof.
  intros Hdue Hl.
  destruct (Z.eq_dec (buffer (tsiBuffer st))
              (working_flags channel data l (tsiSensorFlags st))) as [He | Hn].
  - eexists. apply (tsiProcScan_unchanged _ _ _ l); assumption.
  - eexists. apply (tsiProcScan_changed _ _ _ l); assumption.
Qed.

Lemma tsiProcScan_level channel data st st' :
  tsiProcScan channel data st = Ok st' ->
  exists l, tsiSensorLevels st !! Z.to_nat channel = Some l.
Proof.
  intros Hrun. pose proof (tsiProcScan_due _ _ _ _ Hrun) as Hdue.
  revert Hrun. unfold tsiProcScan. rewrite (await_scan_due _ Hdue).
  unfold level_at. simpl.
  destruct (tsiSensorLevels st !! Z.to_nat channel) as [l |]; [eauto |].
  simpl. discriminate.
Qed.

(** What a call leaves alone, and what it writes. *)
Lemma tsiProcScan_fields channel data st st' l :
  tsiSensorLevels st !! Z.to_nat channel = Some l ->
  tsiProcScan channel data st = Ok st' ->
  tsiSensorLevels st' = tsiSensorLevels st /\
  tsiTaskState st' = tsiTaskState st /\
  tsiSensorFlags st' = working_flags channel data l (tsiSensorFlags st).
Proof.
  intros Hl Hrun.
  destruct (Z.eq_dec (buffer (tsiBuffer st))
              (working_flags channel data l (tsiSensorFlags st))) as [He | Hn].
  - rewrite (tsiProcScan_unchanged _ _ _ _ (tsiProcScan_due _ _ _ _ Hrun) Hl He)
      in Hrun.
    injection Hrun as <-. simpl. auto.
  - rewrite (tsiProcScan_changed _ _ _ _ (tsiProcScan_due _ _ _ _ Hrun) Hl Hn)
      in Hrun.
    injection Hrun as <-. simpl. auto.
Qed.

End DriverFacts.

(** ** The touch bit of the processed electrode *)

Section TouchBit.
Context {board : Board}.

Lemma working_flags_range channel data l flags :
  0 <= working_flags channel data l flags < 2 ^ 16.
Proof.
  unfold working_flags.
  destruct (threshold l <? raw_count data); apply to_INT16U_range.
Qed.

(** Bit by bit: above the threshold the channel's bit is or-ed in; at or
    below it the flags are and-ed with the channel's bit alone, which keeps
    that bit as it was and drops every other one. *)
Lemma working_flags_testbit channel data l flags i :
  0 <= channel < 16 ->
  Z.testbit (working_flags channel data l flags) i =
  if threshold l <? raw_count data
  then (i <? 16) && (Z.testbit flags i || (i =? channel))
  else (i <? 16) && (Z.testbit flags i && (i =? channel)).
Proof.
  intros Hch. unfold working_flags.
  destruct (threshold l <? raw_count data);
    rewrite to_INT16U_testbit; f_equal.
  - now rewrite Z.lor_spec, channel_mask_testbit.
  - now rewrite Z.land_spec, channel_mask_testbit.
Qed.

Lemma tsiProcScan_touch_sets_bit channel data st st' l :
  0 <= channel < 16 ->
  tsiSensorLevels st !! Z.to_nat channel = Some l ->
  tsiProcScan channel data st = Ok st' ->
  threshold l < raw_count data ->
  Z.testbit (tsiSensorFlags st') channel = true.
Proof.
  intros Hch Hl Hrun Hgt.
  destruct (tsiProcScan_fields _ _ _ _ _ Hl Hrun) as (_ & _ & ->).
  rewrite working_flags_testbit by exact Hch.
  apply Z.ltb_lt in Hgt. rewrite Hgt, Z.eqb_refl, orb_true_r, andb_true_r.
  apply Z.ltb_lt. lia.
Qed.

Lemma tsiProcScan_no_touch_keeps_bit channel data st st' l :
  0 <= channel < 16 ->
  tsiSensorLevels st !! Z.to_nat channel = Some l ->
  tsiProcScan channel data st = Ok st' ->
  raw_count data <= threshold l ->
  Z.testbit (tsiSensorFlags st') channel = Z.testbit (tsiSensorFlags st) channel.
Proof.
  intros Hch Hl Hrun Hle.
  destruct (tsiProcScan_fields _ _ _ _ _ Hl Hrun) as (_ & _ & ->).
  rewrite working_flags_testbit by exact Hch.
  apply Z.ltb_ge in Hle. rewrite Hle, Z.eqb_refl, andb_true_r.
  replace (channel <? 16) with true by (symmetry; apply Z.ltb_lt; lia).
  reflexivity.
Qed.

Lemma tsiProcScan_no_touch_drops_others channel data st st' l other :
  0 <= channel < 16 ->
  tsiSensorLevels st !! Z.to_nat channel = Some l ->
  tsiProcScan channel data st = Ok st' ->
  raw_count data <= threshold l ->
  other <> channel ->
  Z.testbit (tsiSensorFlags st') other = false.
Proof.
  intros Hch Hl Hrun Hle Hne.
  destruct (tsiProcScan_fields _ _ _ _ _ Hl Hrun) as (_ & _ & ->).
  rewrite working_flags_testbit by exact Hch.
  apply Z.ltb_ge in Hle. rewrite Hle.
  replace (other =? channel) with false by (symmetry; now apply Z.eqb_neq).
  now rewrite !andb_false_r.
Qed.

End TouchBit.

(** C1.  With the pads on channels 12 and 11 and thresholds of 2048: a
    count of 2100 sets bit 12; a following count of 100 on the same
    electrode, below the threshold, leaves bit 12 set, where the claim has
    it cleared; and a count of 100 on electrode 11 instead clears bit 12,
    whose own last count was above its threshold.  Each call follows a
    scan start, as in the task.  The same on a run of the task: with both
    pads held for two periods and pad 1 released in the third (counts
    2100, 2100, 100), the third period processes pad 1 on a count below
    its threshold and leaves bit 12 set, while it clears bit 11. *)
Theorem tsiProcScan_below_threshold_bit_not_cleared :
  exists st1 st2 st3 st4 st5,
    @tsiProcScan example_board 12 2100 (tsiStartScan 12 example_idle)
      = Ok st1 /\
    Z.testbit (tsiSensorFlags st1) 12 = true /\
    @tsiProcScan example_board 12 100 (tsiStartScan 12 st1)
      = Ok st2 /\
    @raw_count example_board 100 <= 2048 /\
    Z.testbit (tsiSensorFlags st2) 12 = true /\
    @tsiProcScan example_board 11 100 (tsiStartScan 12 st1)
      = Ok st3 /\
    Z.testbit (tsiSensorFlags st3) 12 = false /\
    @TSITask example_board [2100; 2100] example_idle = Ok st4 /\
    Z.testbit (tsiSensorFlags st4) 12 = true /\
    Z.testbit (tsiSensorFlags st4) 11 = true /\
    @TSITask_period example_board 100 st4 = Ok st5 /\
    processed_channels (new_events st4 st5) = [12] /\
    Z.testbit (tsiSensorFlags st5) 12 = true /\
    Z.testbit (tsiSensorFlags st5) 11 = false.
Proof.
  do 5 eexists.
  split; [vm_compute; reflexivity |].
  split; [reflexivity |].
  split; [vm_compute; reflexivity |].
  split; [vm_compute; discriminate |].
  split; [reflexivity |].
  split; [vm_compute; reflexivity |].
  split; [reflexivity |].
  split; [vm_compute; reflexivity |].
  split; [reflexivity |].
  split; [reflexivity |].
  split; [vm_compute; reflexivity |].
  repeat split; vm_compute; reflexivity.
Qed.

(** ** Publishing to the buffer *)

Lemma OSSemPost_pending s : 0 < Ctr (OSSemPost s).
Proof.
  unfold OSSemPost. destruct (Z.ltb_spec 0 (Ctr s)); simpl; lia.
Qed.

Lemma OSSemPost_binary s : 0 <= Ctr s <= 1 -> Ctr (OSSemPost s) = 1.
Proof.
  intros H. unfold OSSemPost. destruct (Z.ltb_spec 0 (Ctr s)); simpl; lia.
Qed.

Section Publish.
Context {board : Board}.

(** The working bitmask differs from the buffer: the low byte of the
    working bitmask is stored and [OSSemPost] is called once. *)
Lemma tsiProcScan_publish channel data st st' :
  tsiProcScan channel data st = Ok st' ->
  buffer (tsiBuffer st) <> tsiSensorFlags st' ->
  buffer (tsiBuffer st') = to_INT8U (tsiSensorFlags st') /\
  flag (tsiBuffer st') = OSSemPost (flag (tsiBuffer st)) /\
  new_events st st' = [EvScanRead channel (raw_count data); EvSemPost].
Proof.
  intros Hrun Hne.
  destruct (tsiProcScan_level _ _ _ _ Hrun) as [l Hl].
  destruct (tsiProcScan_fields _ _ _ _ _ Hl Hrun) as (_ & _ & Hflags).
  rewrite Hflags in Hne.
  rewrite (tsiProcScan_changed _ _ _ _ (tsiProcScan_due _ _ _ _ Hrun) Hl Hne)
    in Hrun.
  injection Hrun as <-. simpl. repeat split.
  apply new_events_app. simpl. now rewrite <- app_assoc.
Qed.

(** The working bitmask equals the buffer: buffer and semaphore stay as
    they are, and nothing is posted. *)
Lemma tsiProcScan_no_publish channel data st st' :
  tsiProcScan channel data st = Ok st' ->
  buffer (tsiBuffer st) = tsiSensorFlags st' ->
  tsiBuffer st' = tsiBuffer st /\
  new_events st st' = [EvScanRead channel (raw_count data)].
Proof.
  intros Hrun Heq.
  destruct (tsiProcScan_level _ _ _ _ Hrun) as [l Hl].
  destruct (tsiProcScan_fields _ _ _ _ _ Hl Hrun) as (_ & _ & Hflags).
  rewrite Hflags in Heq.
  rewrite (tsiProcScan_unchanged _ _ _ _ (tsiProcScan_due _ _ _ _ Hrun) Hl Heq)
    in Hrun.
  injection Hrun as <-. simpl. split; [reflexivity |].
  now apply new_events_app.
Qed.

Lemma tsiProcScan_posts channel data st st' :
  tsiProcScan channel data st = Ok st' ->
  count_posts (new_events st st') =
  if buffer (tsiBuffer st) =? tsiSensorFlags st' then 0%nat else 1%nat.
Proof.
  intros Hrun.
  destruct (Z.eqb_spec (buffer (tsiBuffer st)) (tsiSensorFlags st')) as [He | Hn].
  - destruct (tsiProcScan_no_publish _ _ _ _ Hrun He) as (_ & ->). reflexivity.
  - destruct (tsiProcScan_publish _ _ _ _ Hrun Hn) as (_ & _ & ->). reflexivity.
Qed.

(** A bitmask that fits the 8-bit buffer is stored as it is. *)
Lemma tsiProcScan_publish_fits channel data st st' :
  tsiProcScan channel data st = Ok st' ->
  tsiSensorFlags st' < 2 ^ 8 ->
  buffer (tsiBuffer st') = tsiSensorFlags st'.
Proof.
  intros Hrun Hfit.
  destruct (Z.eq_dec (buffer (tsiBuffer st)) (tsiSensorFlags st')) as [He | Hn].
  - destruct (tsiProcScan_no_publish _ _ _ _ Hrun He) as (-> & _). exact He.
  - destruct (tsiProcScan_publish _ _ _ _ Hrun Hn) as (-> & _).
    apply to_INT8U_small. split; [| exact Hfit].
    destruct (tsiProcScan_level _ _ _ _ Hrun) as [l Hl].
    destruct (tsiProcScan_fields _ _ _ _ _ Hl Hrun) as (_ & _ & ->).
    apply working_flags_range.
Qed.


End Publish.

(** C2.  With pad 1 on channel 12: in the first period after
    initialisation, once the scan of pad 1 is started, a count of 2100
    gives the working bitmask 4096, which differs from the buffer's 0; the
    notification is posted once, but the buffer holds 0 afterwards, not
    the working value. *)
Theorem tsiProcScan_buffer_not_working_value :
  exists st1,
    @tsiProcScan example_board 12 2100 (tsiStartScan 12 example_idle) = Ok st1 /\
    tsiSensorFlags st1 = 4096 /\
    buffer (tsiBuffer example_idle) <> tsiSensorFlags st1 /\
    count_posts (new_events example_idle st1) = 1%nat /\
    buffer (tsiBuffer st1) = 0 /\
    buffer (tsiBuffer st1) <> tsiSensorFlags st1.
Proof.
  eexists. split; [vm_compute; reflexivity |].
  repeat split; vm_compute; congruence.
Qed.

(** C3.  With the pads on channels 12 and 11 and both held down (count
    2100 every period): after the second period the working bitmask is
    6144 and stays 6144, yet the third and the fourth period post one
    notification each. *)
Theorem TSITask_steady_bitmask_posts_again :
  exists st2 st3 st4,
    @TSITask example_board [2100; 2100] example_idle = Ok st2 /\
    @TSITask_period example_board 2100 st2 = Ok st3 /\
    @TSITask_period example_board 2100 st3 = Ok st4 /\
    tsiSensorFlags st2 = 6144 /\
    tsiSensorFlags st3 = 6144 /\
    tsiSensorFlags st4 = 6144 /\
    count_posts (new_events st2 st3) = 1%nat /\
    count_posts (new_events st3 st4) = 1%nat.
Proof.
  do 3 eexists.
  split; [vm_compute; reflexivity |].
  split; [vm_compute; reflexivity |].
  split; [vm_compute; reflexivity |].
  repeat split; vm_compute; reflexivity.
Qed.

(** ** Calibration *)

Section Calibration.
Context {board : Board}.

Lemma TSIChCalibration_Ok channel data st l :
  tsiSensorLevels st !! Z.to_nat channel = Some l ->
  TSIChCalibration channel data st =
  Ok (set_levels
        (<[Z.to_nat channel :=
             mkLevel (raw_count data) (offset l)
                     (to_INT16U (raw_count data + offset l))]>
           (tsiSensorLevels st))
        (log_event (EvScanRead channel (raw_count data))
           (tsiStartScan channel st))).
Proof.
  intros Hl. unfold TSIChCalibration.
  rewrite (await_scan_due _ (scan_due_tsiStartScan channel st)).
  unfold level_at. simpl. rewrite Hl. reflexivity.
Qed.

Lemma TSIChCalibration_level channel data st st' l :
  tsiSensorLevels st !! Z.to_nat channel = Some l ->
  TSIChCalibration channel data st = Ok st' ->
  tsiSensorLevels st' !! Z.to_nat channel =
  Some (mkLevel (raw_count data) (offset l)
                (to_INT16U (raw_count data + offset l))).
Proof.
  intros Hl Hrun. rewrite (TSIChCalibration_Ok _ _ _ _ Hl) in Hrun.
  injection Hrun as <-. simpl.
  apply list_lookup_insert_eq. now apply lookup_lt_Some with l.
Qed.

(** Levels of the other channels are not written. *)
Lemma TSIChCalibration_other channel data st st' other :
  TSIChCalibration channel data st = Ok st' ->
  Z.to_nat other <> Z.to_nat channel ->
  tsiSensorLevels st' !! Z.to_nat other = tsiSensorLevels st !! Z.to_nat other.
Proof.
  intros Hrun Hne. unfold TSIChCalibration in Hrun.
  rewrite (await_scan_due _ (scan_due_tsiStartScan channel st)) in Hrun.
  unfold level_at in Hrun. simpl in Hrun.
  destruct (tsiSensorLevels st !! Z.to_nat channel) as [l |]; [| discriminate].
  simpl in Hrun. injection Hrun as <-. simpl.
  apply list_lookup_insert_ne. congruence.
Qed.

End Calibration.

(** C5, as the claim has it, fails: on a reading of 0xFFFF with the
    offset 0x0400 the 16-bit threshold is 1023, not 65535 + 1024. *)
Lemma TSIChCalibration_threshold_wraps :
  exists st' l',
    @TSIChCalibration example_board 12 0xFFFF example_idle = Ok st' /\
    tsiSensorLevels st' !! 12%nat = Some l' /\
    baseline l' = 65535 /\ offset l' = 1024 /\ threshold l' = 1023 /\
    threshold l' <> baseline l' + offset l'.
Proof.
  do 2 eexists.
  split; [vm_compute; reflexivity |].
  split; [vm_compute; reflexivity |].
  repeat split; vm_compute; congruence.
Qed.

(** C5, amended.  After [TSIChCalibration] on a channel of the table, the
    baseline of the channel is the count read from the scan it started,
    its offset is untouched and its threshold is baseline + offset reduced
    modulo 2^16, which is baseline + offset when that sum is below 2^16;
    a second calibration leaves the levels of its own reading only. *)
Theorem TSIChCalibration_baseline_threshold {board : Board} channel data st l :
  tsiSensorLevels st !! Z.to_nat channel = Some l ->
  exists st' l',
    TSIChCalibration channel data st = Ok st' /\
    new_events st st' =
      [EvStartScan channel; EvScanRead channel (raw_count data)] /\
    tsiSensorLevels st' !! Z.to_nat channel = Some l' /\
    baseline l' = raw_count data /\
    offset l' = offset l /\
    threshold l' = (baseline l' + offset l') mod 2 ^ 16 /\
    (0 <= offset l' -> baseline l' + offset l' < 2 ^ 16 ->
     threshold l' = baseline l' + offset l') /\
    (forall data2, exists st'',
       TSIChCalibration channel data2 st' = Ok st'' /\
       tsiSensorLevels st'' !! Z.to_nat channel =
         Some (mkLevel (raw_count data2) (offset l)
                       ((raw_count data2 + offset l) mod 2 ^ 16))).
Proof.
  intros Hl.
  pose proof (TSIChCalibration_Ok channel data st l Hl) as Hrun.
  eexists. eexists. split; [exact Hrun |].
  pose proof (TSIChCalibration_level _ _ _ _ _ Hl Hrun) as Hl'.
  split.
  { apply new_events_app. simpl. now rewrite <- app_assoc. }
  split; [exact Hl' |]. simpl.
  split; [reflexivity |]. split; [reflexivity |]. split; [reflexivity |].
  split.
  - intros Hoff Hsum. apply to_INT16U_small.
    pose proof (to_INT16U_range (Z.land data TSI_DATA_TSICNT_MASK)).
    unfold raw_count in *. lia.
  - intros data2.
    pose proof (TSIChCalibration_Ok channel data2 _ _ Hl') as Hrun2.
    eexists. split; [exact Hrun2 |].
    exact (TSIChCalibration_level _ _ _ _ _ Hl' Hrun2).
Qed.

Lemma TSIChCalibration_baseline_threshold_witness :
  tsiSensorLevels example_idle !! Z.to_nat 12 = Some example_level /\
  exists st' l',
    @TSIChCalibration example_board 12 1000 example_idle = Ok st' /\
    tsiSensorLevels st' !! Z.to_nat 12 = Some l' /\
    baseline l' = 1000 /\ threshold l' = 2024.
Proof.
  split; [reflexivity |].
  destruct (@TSIChCalibration_baseline_threshold example_board 12 1000
              example_idle example_level eq_refl)
    as (st' & l' & Hrun & _ & Hl' & Hb & Ho & Ht & _).
  exists st', l'. split; [exact Hrun |]. split; [exact Hl' |].
  split; [exact Hb |]. rewrite Ht, Hb, Ho. reflexivity.
Defined.

(** ** Initialisation *)

Lemma error_trap_passes fuel st : error_trap (S fuel) OS_ERR_NONE st = Ok st.
Proof. reflexivity. Qed.

Lemma error_trap_spins fuel os_err st :
  os_err <> OS_ERR_NONE -> error_trap fuel os_err st = OutOfFuel.
Proof.
  intros Hne. induction fuel as [| fuel IH]; simpl; [reflexivity |].
  destruct os_err; simpl; [congruence | exact IH | exact IH].
Qed.

(** When [OSTaskCreate] reports an error, [TSIInit] does not return,
    whatever the number of turns granted to the trap. *)
Lemma TSIInit_task_error_never_returns {board : Board}
    fuel data1 data2 sem_err task_err st st' :
  task_err <> OS_ERR_NONE ->
  TSIInit fuel data1 data2 sem_err task_err st <> Ok st'.
Proof.
  intros Hne. unfold TSIInit.
  destruct (level_at BRD_PAD1_CH st) as [l1 | |]; simpl; try discriminate.
  match goal with |- context [level_at BRD_PAD2_CH ?s] =>
    destruct (level_at BRD_PAD2_CH s) as [l2 | |] end; simpl; try discriminate.
  match goal with |- context [TSIChCalibration BRD_PAD1_CH data1 ?s] =>
    destruct (TSIChCalibration BRD_PAD1_CH data1 s) as [st3 | |] end;
    simpl; try discriminate.
  destruct (TSIChCalibration BRD_PAD2_CH data2 st3) as [st4 | |];
    simpl; try discriminate.
  now rewrite error_trap_spins.
Qed.

(** With both kernel calls successful, one turn of the trap is enough. *)
Lemma TSIInit_example_returns :
  @TSIInit example_board 1 1024 1024 OS_ERR_NONE OS_ERR_NONE initial_state =
  Ok example_idle.
Proof. vm_compute. reflexivity. Qed.

Lemma TSIInit_low_returns :
  @TSIInit low_board 1 1024 1024 OS_ERR_NONE OS_ERR_NONE initial_state =
  Ok low_idle.
Proof. vm_compute. reflexivity. Qed.

(** C9.  [OSSemCreate] reports an error, [OSTaskCreate] that follows
    reports none: the second status replaces the first in [os_err], the
    trap lets [TSIInit] through, and start-up goes on as after a
    successful initialisation. *)
Theorem TSIInit_semaphore_error_returns :
  @TSIInit example_board 1 1024 1024 (OS_ERR_OTHER 1) OS_ERR_NONE initial_state =
  Ok example_idle.
Proof. vm_compute. reflexivity. Qed.

(** ** The scanning task, period by period *)

Lemma levels_ok_lookup st channel :
  levels_ok st -> 0 <= channel < MAX_NUM_ELECTRODES ->
  exists l, tsiSensorLevels st !! Z.to_nat channel = Some l.
Proof.
  intros Hlen Hch. apply lookup_lt_is_Some_2. rewrite Hlen.
  unfold MAX_NUM_ELECTRODES in *. lia.
Qed.

Section Task.
Context {board : Board}.

(** What one call of [tsiProcScan] adds to the log. *)
Lemma tsiProcScan_log channel data st st' :
  tsiProcScan channel data st = Ok st' ->
  exists posts,
    (posts = [] \/ posts = [EvSemPost]) /\
    new_events st st' = EvScanRead channel (raw_count data) :: posts /\
    io_log st' = io_log st ++ EvScanRead channel (raw_count data) :: posts.
Proof.
  intros Hrun.
  destruct (tsiProcScan_level _ _ _ _ Hrun) as [l Hl].
  destruct (Z.eq_dec (buffer (tsiBuffer st))
              (working_flags channel data l (tsiSensorFlags st))) as [He | Hn].
  - rewrite (tsiProcScan_unchanged _ _ _ _ (tsiProcScan_due _ _ _ _ Hrun) Hl He)
      in Hrun.
    injection Hrun as <-. exists []. split; [now left |].
    assert (io_log (set_flags
                      (working_flags channel data l (tsiSensorFlags st))
                      (log_event (EvScanRead channel (raw_count data)) st)) =
            io_log st ++ [EvScanRead channel (raw_count data)]) as Hlog
      by reflexivity.
    split; [now apply new_events_app | exact Hlog].
  - rewrite (tsiProcScan_changed _ _ _ _ (tsiProcScan_due _ _ _ _ Hrun) Hl Hn)
      in Hrun.
    injection Hrun as <-. exists [EvSemPost]. split; [now right |].
    match goal with |- _ /\ io_log ?s = _ =>
      assert (io_log s =
              io_log st ++ [EvScanRead channel (raw_count data); EvSemPost])
        as Hlog by (simpl; now rewrite <- app_assoc) end.
    split; [now apply new_events_app | exact Hlog].
Qed.

(** In [PROC1START2]: start on pad 1, pad 1 processed, start on pad 2,
    and on to [PROC2START1]. *)
Lemma TSITask_period_proc1 data st l :
  tsiSensorLevels st !! Z.to_nat BRD_PAD1_CH = Some l ->
  tsiTaskState st = PROC1START2 ->
  exists st2 st' posts,
    tsiProcScan BRD_PAD1_CH data (tsiStartScan BRD_PAD1_CH st) = Ok st2 /\
    TSITask_period data st = Ok st' /\
    st' = set_task_state PROC2START1 (tsiStartScan BRD_PAD2_CH st2) /\
    (posts = [] \/ posts = [EvSemPost]) /\
    io_log st' =
      io_log st ++
      EvStartScan BRD_PAD1_CH :: EvScanRead BRD_PAD1_CH (raw_count data)
        :: posts ++ [EvStartScan BRD_PAD2_CH].
Proof.
  intros Hl Hs.
  destruct (tsiProcScan_total BRD_PAD1_CH data (tsiStartScan BRD_PAD1_CH st) l
              (scan_due_tsiStartScan _ _) Hl)
    as [st2 Hproc].
  destruct (tsiProcScan_log _ _ _ _ Hproc) as (posts & Hposts & _ & Hlog).
  exists st2, (set_task_state PROC2START1 (tsiStartScan BRD_PAD2_CH st2)), posts.
  split; [exact Hproc |]. split.
  { unfold TSITask_period. simpl. rewrite Hs. simpl. rewrite Hproc. reflexivity. }
  split; [reflexivity |]. split; [exact Hposts |].
  simpl. rewrite Hlog. simpl. now rewrite <- !app_assoc.
Qed.

(** In [PROC2START1]: start on pad 1, pad 2 processed, start on pad 1,
    and back to [PROC1START2]. *)
Lemma TSITask_period_proc2 data st l :
  tsiSensorLevels st !! Z.to_nat BRD_PAD2_CH = Some l ->
  tsiTaskState st = PROC2START1 ->
  exists st2 st' posts,
    tsiProcScan BRD_PAD2_CH data (tsiStartScan BRD_PAD1_CH st) = Ok st2 /\
    TSITask_period data st = Ok st' /\
    st' = set_task_state PROC1START2 (tsiStartScan BRD_PAD1_CH st2) /\
    (posts = [] \/ posts = [EvSemPost]) /\
    io_log st' =
      io_log st ++
      EvStartScan BRD_PAD1_CH :: EvScanRead BRD_PAD2_CH (raw_count data)
        :: posts ++ [EvStartScan BRD_PAD1_CH].
Proof.
  intros Hl Hs.
  destruct (tsiProcScan_total BRD_PAD2_CH data (tsiStartScan BRD_PAD1_CH st) l
              (scan_due_tsiStartScan _ _) Hl)
    as [st2 Hproc].
  destruct (tsiProcScan_log _ _ _ _ Hproc) as (posts & Hposts & _ & Hlog).
  exists st2, (set_task_state PROC1START2 (tsiStartScan BRD_PAD1_CH st2)), posts.
  split; [exact Hproc |]. split.
  { unfold TSITask_period. simpl. rewrite Hs. simpl. rewrite Hproc. reflexivity. }
  split; [reflexivity |]. split; [exact Hposts |].
  simpl. rewrite Hlog. simpl. now rewrite <- !app_assoc.
Qed.

(** Any other value: start on pad 1, nothing processed, [PROC1START2]. *)
Lemma TSITask_period_default data st :
  tsiTaskState st <> PROC1START2 ->
  tsiTaskState st <> PROC2START1 ->
  TSITask_period data st =
    Ok (set_task_state PROC1START2 (tsiStartScan BRD_PAD1_CH st)) /\
  new_events st (set_task_state PROC1START2 (tsiStartScan BRD_PAD1_CH st)) =
    [EvStartScan BRD_PAD1_CH].
Proof.
  intros H1 H2. apply Z.eqb_neq in H1, H2. split.
  - unfold TSITask_period. simpl. now rewrite H1, H2.
  - now apply new_events_app.
Qed.

(** Every period runs to its end on a table of the declared size, keeps
    the table, and only adds to the log, a start on pad 1 first. *)
Lemma TSITask_period_total data st :
  board_ok board -> levels_ok st ->
  exists st' evs,
    TSITask_period data st = Ok st' /\
    tsiSensorLevels st' = tsiSensorLevels st /\
    io_log st' = io_log st ++ EvStartScan BRD_PAD1_CH :: evs.
Proof.
  intros [Hp1 Hp2] Hlev.
  destruct (levels_ok_lookup st _ Hlev Hp1) as [l1 Hl1].
  destruct (levels_ok_lookup st _ Hlev Hp2) as [l2 Hl2].
  destruct (Z.eq_dec (tsiTaskState st) PROC1START2) as [Hs1 | Hs1];
    [| destruct (Z.eq_dec (tsiTaskState st) PROC2START1) as [Hs2 | Hs2]].
  - destruct (TSITask_period_proc1 data st l1 Hl1 Hs1)
      as (st2 & st' & posts & Hproc & Hrun & Hst' & _ & Hlog).
    exists st'. eexists. split; [exact Hrun |]. split; [| exact Hlog].
    destruct (tsiProcScan_fields _ _ (tsiStartScan BRD_PAD1_CH st) _ _ Hl1 Hproc)
      as (Hlv & _ & _).
    rewrite Hst'. exact Hlv.
  - destruct (TSITask_period_proc2 data st l2 Hl2 Hs2)
      as (st2 & st' & posts & Hproc & Hrun & Hst' & _ & Hlog).
    exists st'. eexists. split; [exact Hrun |]. split; [| exact Hlog].
    destruct (tsiProcScan_fields _ _ (tsiStartScan BRD_PAD1_CH st) _ _ Hl2 Hproc)
      as (Hlv & _ & _).
    rewrite Hst'. exact Hlv.
  - destruct (TSITask_period_default data st Hs1 Hs2) as [Hrun _].
    eexists. exists []. split; [exact Hrun |]. split; reflexivity.
Qed.

End Task.

(** ** Two calls in succession *)



(** ** Alternation of the scan cycle *)

Section Alternation.
Context {board : Board}.

Lemma levels_ok_period data st st' :
  board_ok board -> levels_ok st ->
  TSITask_period data st = Ok st' -> levels_ok st'.
Proof.
  intros Hb Hlev Hrun.
  destruct (TSITask_period_total data st Hb Hlev) as (st1 & evs & Hrun1 & Hlv & _).
  rewrite Hrun in Hrun1. injection Hrun1 as <-.
  unfold levels_ok in *. now rewrite Hlv.
Qed.

(** A run of periods whose first one has number [k], odd in
    [PROC1START2] and even in [PROC2START1]. *)
Lemma TSITask_run datas : forall st k,
  board_ok board -> levels_ok st ->
  (tsiTaskState st = PROC1START2 /\ Nat.odd k = true) \/
  (tsiTaskState st = PROC2START1 /\ Nat.odd k = false) ->
  exists st' evs,
    TSITask datas st = Ok st' /\
    io_log st' = io_log st ++ evs /\
    processed_channels evs = map electrode_of_period (seq k (length datas)) /\
    tsiTaskState st' =
      (if Nat.odd (k + length datas) then PROC1START2 else PROC2START1).
Proof.
  induction datas as [| data rest IH]; intros st k Hb Hlev Hk.
  - exists st, []. split; [reflexivity |]. split; [now rewrite app_nil_r |].
    split; [reflexivity |]. simpl. rewrite Nat.add_0_r.
    destruct Hk as [[-> ->] | [-> ->]]; reflexivity.
  - destruct Hb as [Hp1 Hp2].
    destruct (levels_ok_lookup st _ Hlev Hp1) as [l1 Hl1].
    destruct (levels_ok_lookup st _ Hlev Hp2) as [l2 Hl2].
    assert (Hstep : exists st1 e1,
               TSITask_period data st = Ok st1 /\
               io_log st1 = io_log st ++ e1 /\
               processed_channels e1 = [electrode_of_period k] /\
               ((tsiTaskState st1 = PROC1START2 /\ Nat.odd (S k) = true) \/
                (tsiTaskState st1 = PROC2START1 /\ Nat.odd (S k) = false))).
    { rewrite Nat.odd_succ, <- Nat.negb_odd. unfold electrode_of_period.
      destruct Hk as [[Hs Hodd] | [Hs Hodd]]; rewrite Hodd.
      - destruct (TSITask_period_proc1 data st l1 Hl1 Hs)
          as (st2 & st1 & posts & _ & Hrun & -> & Hposts & Hlog).
        eexists. eexists. split; [exact Hrun |]. split; [exact Hlog |].
        split; [| right; split; reflexivity].
        destruct Hposts as [-> | ->]; reflexivity.
      - destruct (TSITask_period_proc2 data st l2 Hl2 Hs)
          as (st2 & st1 & posts & _ & Hrun & -> & Hposts & Hlog).
        eexists. eexists. split; [exact Hrun |]. split; [exact Hlog |].
        split; [| left; split; reflexivity].
        destruct Hposts as [-> | ->]; reflexivity. }
    destruct Hstep as (st1 & e1 & Hrun & Hlog1 & Hproc1 & Hk1).
    pose proof (levels_ok_period _ _ _ (conj Hp1 Hp2) Hlev Hrun) as Hlev1.
    destruct (IH st1 (S k) (conj Hp1 Hp2) Hlev1 Hk1)
      as (st' & e2 & Hrest & Hlog2 & Hproc2 & Hfinal).
    exists st', (e1 ++ e2). split.
    { simpl. rewrite Hrun. simpl. exact Hrest. }
    split; [rewrite Hlog2, Hlog1; now rewrite app_assoc |].
    split.
    { rewrite processed_channels_app, Hproc1, Hproc2. reflexivity. }
    simpl length. rewrite Nat.add_succ_r. exact Hfinal.
Qed.

End Alternation.

(** C4.  The state variable starts as [PROC1START2].  A period in
    [PROC1START2] starts pad 1, processes pad 1, starts pad 2 and leaves
    [PROC2START1]; a period in [PROC2START1] starts pad 1, processes pad 2,
    starts pad 1 and leaves [PROC1START2]; a period in any other value
    processes nothing and leaves [PROC1START2].  Over any run of periods
    from [PROC1START2] the electrodes processed are pad 1 in the odd
    periods and pad 2 in the even ones, counted from 1. *)
Theorem TSITask_state_alternates {board : Board} :
  board_ok board ->
  tsiTaskState initial_state = PROC1START2 /\
  (forall data st, levels_ok st -> tsiTaskState st = PROC1START2 ->
     exists st' posts,
       TSITask_period data st = Ok st' /\
       tsiTaskState st' = PROC2START1 /\
       (posts = [] \/ posts = [EvSemPost]) /\
       new_events st st' =
         EvStartScan BRD_PAD1_CH :: EvScanRead BRD_PAD1_CH (raw_count data)
           :: posts ++ [EvStartScan BRD_PAD2_CH]) /\
  (forall data st, levels_ok st -> tsiTaskState st = PROC2START1 ->
     exists st' posts,
       TSITask_period data st = Ok st' /\
       tsiTaskState st' = PROC1START2 /\
       (posts = [] \/ posts = [EvSemPost]) /\
       new_events st st' =
         EvStartScan BRD_PAD1_CH :: EvScanRead BRD_PAD2_CH (raw_count data)
           :: posts ++ [EvStartScan BRD_PAD1_CH]) /\
  (forall data st,
     tsiTaskState st <> PROC1START2 -> tsiTaskState st <> PROC2START1 ->
     exists st',
       TSITask_period data st = Ok st' /\
       tsiTaskState st' = PROC1START2 /\
       processed_channels (new_events st st') = []) /\
  (forall datas st, levels_ok st -> tsiTaskState st = PROC1START2 ->
     exists st',
       TSITask datas st = Ok st' /\
       processed_channels (new_events st st') =
         map electrode_of_period (seq 1 (length datas)) /\
       tsiTaskState st' =
         (if Nat.even (length datas) then PROC1START2 else PROC2START1)).
Proof.
  intros Hb. split; [reflexivity |].
  split; [| split; [| split]].
  - intros data st Hlev Hs.
    destruct (levels_ok_lookup st _ Hlev (proj1 Hb)) as [l Hl].
    destruct (TSITask_period_proc1 data st l Hl Hs)
      as (st2 & st' & posts & _ & Hrun & -> & Hposts & Hlog).
    eexists. exists posts. split; [exact Hrun |]. split; [reflexivity |].
    split; [exact Hposts |]. now apply new_events_app.
  - intros data st Hlev Hs.
    destruct (levels_ok_lookup st _ Hlev (proj2 Hb)) as [l Hl].
    destruct (TSITask_period_proc2 data st l Hl Hs)
      as (st2 & st' & posts & _ & Hrun & -> & Hposts & Hlog).
    eexists. exists posts. split; [exact Hrun |]. split; [reflexivity |].
    split; [exact Hposts |]. now apply new_events_app.
  - intros data st H1 H2.
    destruct (TSITask_period_default data st H1 H2) as [Hrun Hnew].
    eexists. split; [exact Hrun |]. split; [reflexivity |].
    now rewrite Hnew.
  - intros datas st Hlev Hs.
    destruct (TSITask_run datas st 1 Hb Hlev (or_introl (conj Hs eq_refl)))
      as (st' & evs & Hrun & Hlog & Hproc & Hfinal).
    exists st'. split; [exact Hrun |].
    rewrite (new_events_app _ _ _ Hlog). split; [exact Hproc |].
    rewrite Hfinal. change (1 + length datas)%nat with (S (length datas)).
    now rewrite Nat.odd_succ.
Qed.

Lemma TSITask_state_alternates_witness :
  board_ok example_board /\
  exists st',
    @TSITask example_board [100; 2100; 100] example_idle = Ok st' /\
    processed_channels (new_events example_idle st') = [12; 11; 12] /\
    tsiTaskState st' = PROC2START1.
Proof.
  assert (Hb : board_ok example_board) by (unfold board_ok, MAX_NUM_ELECTRODES; simpl; lia).
  split; [exact Hb |].
  destruct (@TSITask_state_alternates example_board Hb) as (_ & _ & _ & _ & Hrun).
  exact (Hrun [100; 2100; 100] example_idle eq_refl eq_refl).
Defined.

(** ** Order of scan starts within a period *)

(** C6, as the claim has it, fails: the first call of every period is the
    start on pad 1, with no processing before it in that period; in the
    second period it is issued while the scan started on pad 2 at the end
    of the first has not been awaited, and after two periods four scans
    have been started for two awaited. *)
Lemma TSITask_period_leading_start_unordered :
  exists st1 st2,
    @TSITask_period example_board 100 example_idle = Ok st1 /\
    @TSITask_period example_board 100 st1 = Ok st2 /\
    new_events example_idle st1 =
      [EvStartScan 12; EvScanRead 12 100; EvStartScan 11] /\
    starts_follow_other_processing [] (new_events example_idle st1) = false /\
    new_events st1 st2 =
      [EvStartScan 12; EvScanRead 11 100; EvStartScan 12] /\
    starts_follow_other_processing [] (new_events st1 st2) = false /\
    scans_outstanding 0 (new_events example_idle st1 ++ [EvStartScan 12]) = 2%nat /\
    scans_outstanding 0 (new_events example_idle st2) = 2%nat.
Proof.
  do 2 eexists.
  split; [vm_compute; reflexivity |].
  split; [vm_compute; reflexivity |].
  repeat split; vm_compute; reflexivity.
Qed.

(** C6, amended.  Every period begins with a start on pad 1, before any
    processing.  Every other start of the period follows the processing,
    in that period, of the other pad: in [PROC1START2] pad 1 is processed
    and then pad 2 is started, in [PROC2START1] pad 2 is processed and
    then pad 1 is started, and with any other value of the state variable
    nothing follows the leading start. *)
Theorem TSITask_period_scan_order {board : Board} data st :
  board_ok board ->
  BRD_PAD1_CH <> BRD_PAD2_CH ->
  levels_ok st ->
  exists st' evs,
    TSITask_period data st = Ok st' /\
    new_events st st' = EvStartScan BRD_PAD1_CH :: evs /\
    starts_follow_other_processing [] evs = true /\
    (tsiTaskState st = PROC1START2 ->
     exists posts,
       (posts = [] \/ posts = [EvSemPost]) /\
       evs = EvScanRead BRD_PAD1_CH (raw_count data)
               :: posts ++ [EvStartScan BRD_PAD2_CH]) /\
    (tsiTaskState st = PROC2START1 ->
     exists posts,
       (posts = [] \/ posts = [EvSemPost]) /\
       evs = EvScanRead BRD_PAD2_CH (raw_count data)
               :: posts ++ [EvStartScan BRD_PAD1_CH]) /\
    (tsiTaskState st <> PROC1START2 -> tsiTaskState st <> PROC2START1 ->
     evs = []).
Proof.
  intros [Hp1 Hp2] Hne Hlev.
  destruct (levels_ok_lookup st _ Hlev Hp1) as [l1 Hl1].
  destruct (levels_ok_lookup st _ Hlev Hp2) as [l2 Hl2].
  assert (H12 : negb (BRD_PAD1_CH =? BRD_PAD2_CH) = true)
    by (apply negb_true_iff; now apply Z.eqb_neq).
  assert (H21 : negb (BRD_PAD2_CH =? BRD_PAD1_CH) = true)
    by (apply negb_true_iff; apply Z.eqb_neq; congruence).
  assert (Hdiff : PROC1START2 <> PROC2START1) by discriminate.
  destruct (Z.eq_dec (tsiTaskState st) PROC1START2) as [Hs1 | Hs1];
    [| destruct (Z.eq_dec (tsiTaskState st) PROC2START1) as [Hs2 | Hs2]].
  - destruct (TSITask_period_proc1 data st l1 Hl1 Hs1)
      as (st2 & st' & posts & _ & Hrun & _ & Hposts & Hlog).
    exists st'. eexists. split; [exact Hrun |].
    rewrite (new_events_app _ _ _ Hlog). split; [reflexivity |].
    split; [destruct Hposts as [-> | ->]; simpl; now rewrite H12 |].
    split; [intros _; exists posts; auto |].
    split; [intros Hs2; congruence | intros Hs; contradiction].
  - destruct (TSITask_period_proc2 data st l2 Hl2 Hs2)
      as (st2 & st' & posts & _ & Hrun & _ & Hposts & Hlog).
    exists st'. eexists. split; [exact Hrun |].
    rewrite (new_events_app _ _ _ Hlog). split; [reflexivity |].
    split; [destruct Hposts as [-> | ->]; simpl; now rewrite H21 |].
    split; [intros Hs; contradiction |].
    split; [intros _; exists posts; auto | intros _ Hs; contradiction].
  - destruct (TSITask_period_default data st Hs1 Hs2) as [Hrun Hnew].
    eexists. exists []. split; [exact Hrun |]. split; [exact Hnew |].
    split; [reflexivity |].
    split; [intros Hs; contradiction |].
    split; [intros Hs; contradiction | reflexivity].
Qed.

Lemma TSITask_period_scan_order_witness :
  board_ok example_board /\
  @BRD_PAD1_CH example_board <> @BRD_PAD2_CH example_board /\
  levels_ok example_idle /\
  exists st' evs,
    @TSITask_period example_board 100 example_idle = Ok st' /\
    new_events example_idle st' = EvStartScan 12 :: evs /\
    starts_follow_other_processing [] evs = true /\
    evs = [EvScanRead 12 100; EvStartScan 11].
Proof.
  assert (Hb : board_ok example_board)
    by (unfold board_ok, MAX_NUM_ELECTRODES; simpl; lia).
  assert (Hne : @BRD_PAD1_CH example_board <> @BRD_PAD2_CH example_board)
    by (simpl; lia).
  assert (Hlev : levels_ok example_idle) by reflexivity.
  split; [exact Hb |]. split; [exact Hne |]. split; [exact Hlev |].
  destruct (@TSITask_period_scan_order example_board 100 example_idle Hb Hne Hlev)
    as (st' & evs & Hrun & Hnew & Hord & _).
  exists st', evs. split; [exact Hrun |]. split; [exact Hnew |].
  split; [exact Hord |].
  assert (Hst : @TSITask_period example_board 100 example_idle =
                Ok (set_task_state PROC2START1
                      (tsiStartScan 11
                         (set_flags 0
                            (log_event (EvScanRead 12 100)
                               (tsiStartScan 12 example_idle))))))
    by (vm_compute; reflexivity).
  rewrite Hst in Hrun. injection Hrun as <-.
  vm_compute in Hnew. injection Hnew as <-. reflexivity.
Defined.

(** ** The scanning task as seen by a blocked consumer *)

Lemma scanner_effect_refl st : scanner_effect st [] st.
Proof.
  unfold scanner_effect. rewrite app_nil_r.
  split; [reflexivity |]. split; [reflexivity |]. split; [reflexivity |].
  split; [| auto]. intros H. exfalso. apply H. reflexivity.
Qed.

Lemma scanner_effect_trans st1 evs1 st2 evs2 st3 :
  scanner_effect st1 evs1 st2 -> scanner_effect st2 evs2 st3 ->
  scanner_effect st1 (evs1 ++ evs2) st3.
Proof.
  intros (Hlog1 & Hlv1 & Hno1 & Hpost1 & Hty1) (Hlog2 & Hlv2 & Hno2 & Hpost2 & Hty2).
  unfold scanner_effect. rewrite count_posts_app.
  split; [rewrite Hlog2, Hlog1; now rewrite app_assoc |].
  split; [congruence |]. split; [| split].
  - intros H0. rewrite Hno2, Hno1 by lia. reflexivity.
  - intros Hn. destruct (Nat.eq_dec (count_posts evs2) 0%nat) as [H2 | H2].
    + rewrite (Hno2 H2). apply Hpost1. lia.
    + now apply Hpost2.
  - auto.
Qed.

Lemma scanner_effect_log e st :
  is_post e = false -> scanner_effect st [e] (log_event e st).
Proof.
  intros He. unfold scanner_effect.
  destruct e; try discriminate;
    (split; [reflexivity |]; split; [reflexivity |]; split; [reflexivity |];
     split; [intros Hc; exfalso; apply Hc; reflexivity | auto]).
Qed.

Lemma scanner_effect_task_state s st evs st' :
  scanner_effect st evs st' -> scanner_effect st evs (set_task_state s st').
Proof. intros H. exact H. Qed.

Section Scanner.
Context {board : Board}.

Lemma tsiProcScan_effect channel data st st' :
  tsiProcScan channel data st = Ok st' ->
  scanner_effect st (new_events st st') st'.
Proof.
  intros Hrun.
  destruct (tsiProcScan_level _ _ _ _ Hrun) as [l Hl].
  destruct (tsiProcScan_fields _ _ _ _ _ Hl Hrun) as (Hlv & _ & Hflags).
  destruct (tsiProcScan_log _ _ _ _ Hrun) as (posts & _ & Hnew & Hlog).
  pose proof (tsiProcScan_posts _ _ _ _ Hrun) as Hcount.
  pose proof (working_flags_range channel data l (tsiSensorFlags st)) as Hrange.
  rewrite <- Hflags in Hrange.
  unfold scanner_effect. rewrite Hcount, Hnew.
  split; [exact Hlog |]. split; [exact Hlv |].
  destruct (Z.eqb_spec (buffer (tsiBuffer st)) (tsiSensorFlags st')) as [He | Hn].
  - destruct (tsiProcScan_no_publish _ _ _ _ Hrun He) as (Hbuf & _).
    split; [auto |]. split; [intros H; now contradiction H |].
    intros [Hb _]. unfold typed_state. now rewrite Hbuf.
  - destruct (tsiProcScan_publish _ _ _ _ Hrun Hn) as (Hbuf & Hsem & _).
    split; [intros H; discriminate |].
    split; [intros _; rewrite Hsem; apply OSSemPost_pending |].
    intros _. unfold typed_state. rewrite Hbuf.
    split; [apply to_INT8U_range | exact Hrange].
Qed.

Lemma TSITask_period_effect data st st' :
  TSITask_period data st = Ok st' ->
  scanner_effect st (new_events st st') st'.
Proof.
  unfold TSITask_period. intros Hrun.
  pose proof (scanner_effect_log (EvStartScan BRD_PAD1_CH) st eq_refl) as Hstart.
  fold (tsiStartScan BRD_PAD1_CH st) in Hstart.
  change (tsiTaskState (tsiStartScan BRD_PAD1_CH st)) with (tsiTaskState st) in Hrun.
  assert (Hgoal : exists evs, scanner_effect st evs st').
  { destruct (tsiTaskState st =? PROC1START2);
      [| destruct (tsiTaskState st =? PROC2START1)].
    - destruct (tsiProcScan BRD_PAD1_CH data (tsiStartScan BRD_PAD1_CH st))
        as [st2 | |] eqn:Hproc; simpl in Hrun; try discriminate.
      injection Hrun as <-. eexists. apply scanner_effect_task_state.
      eapply scanner_effect_trans;
        [eapply scanner_effect_trans;
           [exact Hstart | exact (tsiProcScan_effect _ _ _ _ Hproc)] |].
      now apply scanner_effect_log.
    - destruct (tsiProcScan BRD_PAD2_CH data (tsiStartScan BRD_PAD1_CH st))
        as [st2 | |] eqn:Hproc; simpl in Hrun; try discriminate.
      injection Hrun as <-. eexists. apply scanner_effect_task_state.
      eapply scanner_effect_trans;
        [eapply scanner_effect_trans;
           [exact Hstart | exact (tsiProcScan_effect _ _ _ _ Hproc)] |].
      now apply scanner_effect_log.
    - injection Hrun as <-. eexists. apply scanner_effect_task_state.
      exact Hstart. }
  destruct Hgoal as [evs Heff].
  now rewrite (new_events_app _ _ _ (proj1 Heff)).
Qed.

Lemma run_tick_effect tk st st' :
  run_tick tk st = Ok st' -> scanner_effect st (new_events st st') st'.
Proof.
  destruct tk as [data |]; simpl.
  - apply TSITask_period_effect.
  - intros [= <-]. rewrite new_events_refl. apply scanner_effect_refl.
Qed.

Lemma run_ticks_effect n : forall sched st st',
  run_ticks n sched st = Ok st' -> scanner_effect st (new_events st st') st'.
Proof.
  induction n as [| n IH]; intros sched st st' Hrun; simpl in Hrun.
  - injection Hrun as <-. rewrite new_events_refl. apply scanner_effect_refl.
  - destruct (run_tick (hd None sched) st) as [st1 | |] eqn:Htick;
      simpl in Hrun; try discriminate.
    pose proof (scanner_effect_trans _ _ _ _ _
                  (run_tick_effect _ _ _ Htick) (IH _ _ _ Hrun)) as Heff.
    now rewrite (new_events_app _ _ _ (proj1 Heff)).
Qed.

Lemma run_tick_total tk st :
  board_ok board -> levels_ok st ->
  exists st', run_tick tk st = Ok st' /\ levels_ok st'.
Proof.
  intros Hb Hlev. destruct tk as [data |]; simpl.
  - destruct (TSITask_period_total data st Hb Hlev) as (st' & evs & Hrun & _).
    exists st'. split; [exact Hrun |]. exact (levels_ok_period _ _ _ Hb Hlev Hrun).
  - exists st. auto.
Qed.

Lemma run_ticks_total n : forall sched st,
  board_ok board -> levels_ok st ->
  exists st', run_ticks n sched st = Ok st'.
Proof.
  induction n as [| n IH]; intros sched st Hb Hlev; simpl.
  - now exists st.
  - destruct (run_tick_total (hd None sched) st Hb Hlev) as (st1 & -> & Hlev1).
    simpl. now apply IH.
Qed.

End Scanner.

(** ** Pending on the buffer *)

Section Pend.
Context {board : Board}.

Lemma OSSemPend_pending ticks sched st :
  0 < Ctr (flag (tsiBuffer st)) ->
  OSSemPend ticks sched st =
  Ok (OS_ERR_NONE,
      set_buffer (mkBuffer (buffer (tsiBuffer st))
                           (mkSem (Ctr (flag (tsiBuffer st)) - 1))) st).
Proof.
  intros Hp. apply Z.ltb_lt in Hp. destruct ticks; simpl; now rewrite Hp.
Qed.

Lemma OSSemPend_expired sched st :
  Ctr (flag (tsiBuffer st)) <= 0 ->
  OSSemPend 0 sched st = Ok (OS_ERR_TIMEOUT, st).
Proof. intros Hp. apply Z.ltb_ge in Hp. simpl. now rewrite Hp. Qed.

Lemma OSSemPend_blocked ticks sched st :
  Ctr (flag (tsiBuffer st)) <= 0 ->
  OSSemPend (S ticks) sched st =
  (let* st1 := run_tick (hd None sched) st in OSSemPend ticks (tl sched) st1).
Proof. intros Hp. apply Z.ltb_ge in Hp. simpl. now rewrite Hp. Qed.

(** Nothing pending at the call and nothing posted in the ticks granted:
    the wait ends in a time-out, with the buffer as it was. *)
Lemma OSSemPend_timeout ticks : forall sched st stT,
  Ctr (flag (tsiBuffer st)) <= 0 ->
  run_ticks ticks sched st = Ok stT ->
  count_posts (new_events st stT) = 0%nat ->
  OSSemPend ticks sched st = Ok (OS_ERR_TIMEOUT, stT) /\
  tsiBuffer stT = tsiBuffer st.
Proof.
  induction ticks as [| ticks IH]; intros sched st stT Hctr Hrun Hposts.
  - simpl in Hrun. injection Hrun as <-.
    split; [now apply OSSemPend_expired | reflexivity].
  - rewrite (OSSemPend_blocked _ _ _ Hctr). simpl in Hrun.
    destruct (run_tick (hd None sched) st) as [st1 | |] eqn:Htick;
      simpl in Hrun; try discriminate.
    pose proof (run_tick_effect _ _ _ Htick) as Heff1.
    pose proof (run_ticks_effect _ _ _ _ Hrun) as Heff2.
    pose proof (scanner_effect_trans _ _ _ _ _ Heff1 Heff2) as Heff.
    rewrite (new_events_app _ _ _ (proj1 Heff)), count_posts_app in Hposts.
    destruct Heff1 as (_ & _ & Hno1 & _).
    assert (Hbuf1 : tsiBuffer st1 = tsiBuffer st) by (apply Hno1; lia).
    destruct (IH (tl sched) st1 stT) as [Hpend HbufT];
      [now rewrite Hbuf1 | exact Hrun | lia |].
    simpl. split; [exact Hpend | congruence].
Qed.

(** How a wait that returns has gone. *)
Lemma OSSemPend_outcome ticks : forall sched st err st',
  OSSemPend ticks sched st = Ok (err, st') ->
  exists evs,
    io_log st' = io_log st ++ evs /\
    (typed_state st -> typed_state st') /\
    ((err = OS_ERR_NONE /\
      (0 < Ctr (flag (tsiBuffer st)) \/ count_posts evs <> 0%nat)) \/
     (err = OS_ERR_TIMEOUT /\
      Ctr (flag (tsiBuffer st)) <= 0 /\
      count_posts evs = 0%nat /\
      run_ticks ticks sched st = Ok st')).
Proof.
  induction ticks as [| ticks IH]; intros sched st err st' Hpend.
  - destruct (Z.ltb_spec 0 (Ctr (flag (tsiBuffer st)))) as [Hp | Hp].
    + rewrite (OSSemPend_pending _ _ _ Hp) in Hpend. injection Hpend as <- <-.
      exists []. simpl. rewrite app_nil_r. split; [reflexivity |].
      split; [auto |]. left. auto.
    + rewrite (OSSemPend_expired _ _ Hp) in Hpend. injection Hpend as <- <-.
      exists []. rewrite app_nil_r. split; [reflexivity |].
      split; [auto |]. right. auto.
  - destruct (Z.ltb_spec 0 (Ctr (flag (tsiBuffer st)))) as [Hp | Hp].
    + rewrite (OSSemPend_pending _ _ _ Hp) in Hpend. injection Hpend as <- <-.
      exists []. simpl. rewrite app_nil_r. split; [reflexivity |].
      split; [auto |]. left. auto.
    + rewrite (OSSemPend_blocked _ _ _ Hp) in Hpend.
      destruct (run_tick (hd None sched) st) as [st1 | |] eqn:Htick;
        simpl in Hpend; try discriminate.
      destruct (run_tick_effect _ _ _ Htick) as (Hlog1 & _ & Hno1 & Hpost1 & Hty1).
      destruct (IH _ _ _ _ Hpend) as (evs2 & Hlog2 & Hty2 & Hcase).
      exists (new_events st st1 ++ evs2). rewrite count_posts_app.
      split; [rewrite Hlog2, Hlog1; now rewrite app_assoc |].
      split; [auto |].
      destruct (Nat.eq_dec (count_posts (new_events st st1)) 0%nat) as [H1 | H1].
      * pose proof (Hno1 H1) as Hbuf1. rewrite Hbuf1 in Hcase.
        destruct Hcase as [(-> & Hwhy) | (-> & Hctr & H2 & Hrun)].
        -- left. split; [reflexivity |]. destruct Hwhy as [Hc | Hc]; [lia |].
           right. lia.
        -- right. split; [reflexivity |]. split; [exact Hp |].
           split; [lia |]. simpl. rewrite Htick. exact Hrun.
      * pose proof (Hpost1 H1) as Hctr1.
        destruct Hcase as [(-> & _) | (_ & Hctr & _)]; [| lia].
        left. split; [reflexivity |]. right. lia.
Qed.

(** A wait that ends in success has found the notification after some
    number of ticks of the scanning task, the first at which one is
    pending, and has done nothing to the statics that task has left but
    take the notification. *)
Lemma OSSemPend_found ticks : forall sched st st',
  OSSemPend ticks sched st = Ok (OS_ERR_NONE, st') ->
  exists k stk,
    (k <= ticks)%nat /\
    run_ticks k sched st = Ok stk /\
    0 < Ctr (flag (tsiBuffer stk)) /\
    (forall j stj, (j < k)%nat -> run_ticks j sched st = Ok stj ->
                   Ctr (flag (tsiBuffer stj)) <= 0) /\
    st' = set_buffer (mkBuffer (buffer (tsiBuffer stk))
                               (mkSem (Ctr (flag (tsiBuffer stk)) - 1))) stk.
Proof.
  induction ticks as [| ticks IH]; intros sched st st' Hpend;
    destruct (Z.ltb_spec 0 (Ctr (flag (tsiBuffer st)))) as [Hp | Hp].
  - rewrite (OSSemPend_pending _ _ _ Hp) in Hpend. injection Hpend as <-.
    exists 0%nat, st. repeat split; auto; try (intros; lia).
  - rewrite (OSSemPend_expired _ _ Hp) in Hpend. discriminate.
  - rewrite (OSSemPend_pending _ _ _ Hp) in Hpend. injection Hpend as <-.
    exists 0%nat, st. repeat split; auto; try (intros; lia).
  - rewrite (OSSemPend_blocked _ _ _ Hp) in Hpend.
    destruct (run_tick (hd None sched) st) as [st1 | |] eqn:Htick;
      simpl in Hpend; try discriminate.
    destruct (IH _ _ _ Hpend) as (k & stk & Hk & Hrun & Hctr & Hfirst & Hst').
    exists (S k), stk. split; [lia |]. simpl. rewrite Htick. simpl.
    split; [exact Hrun |]. split; [exact Hctr |]. split; [| exact Hst'].
    intros [| j] stj Hj Hrunj.
    + simpl in Hrunj. injection Hrunj as <-. exact Hp.
    + simpl in Hrunj. rewrite Htick in Hrunj. simpl in Hrunj.
      apply (Hfirst j stj); [lia | exact Hrunj].
Qed.

Lemma OSSemPend_total ticks : forall sched st,
  board_ok board -> levels_ok st ->
  exists err st', OSSemPend ticks sched st = Ok (err, st').
Proof.
  induction ticks as [| ticks IH]; intros sched st Hb Hlev;
    destruct (Z.ltb_spec 0 (Ctr (flag (tsiBuffer st)))) as [Hp | Hp].
  - rewrite (OSSemPend_pending _ _ _ Hp). eauto.
  - rewrite (OSSemPend_expired _ _ Hp). eauto.
  - rewrite (OSSemPend_pending _ _ _ Hp). eauto.
  - rewrite (OSSemPend_blocked _ _ _ Hp).
    destruct (run_tick_total (hd None sched) st Hb Hlev) as (st1 & -> & Hlev1).
    simpl. now apply IH.
Qed.

(** What [TSIPend] hands back is the buffer as it is when the wait ends,
    an 8-bit value when the statics hold values of their types. *)
Lemma TSIPend_value tout sched st v err st' :
  TSIPend tout sched st = Ok (v, err, st') ->
  v = to_INT16U (buffer (tsiBuffer st')) /\
  OSSemPend (Z.to_nat (to_INT16U tout)) sched st = Ok (err, st') /\
  (typed_state st -> 0 <= v < 2 ^ 8 /\ v = buffer (tsiBuffer st')).
Proof.
  unfold TSIPend. intros Hrun.
  destruct (OSSemPend (Z.to_nat (to_INT16U tout)) sched st)
    as [[err1 st1] | |] eqn:Hpend; simpl in Hrun; try discriminate.
  injection Hrun as <- <- <-. split; [reflexivity |]. split; [reflexivity |].
  intros Hty. destruct (OSSemPend_outcome _ _ _ _ _ Hpend) as (_ & _ & Hty' & _).
  destruct (Hty' Hty) as [Hb _].
  rewrite to_INT16U_small by lia. split; [exact Hb | reflexivity].
Qed.

End Pend.

(** C7, as the claim has it, fails: on [low_board] a touch of pad 1 is
    published during a period in which no consumer waits; a later
    [TSIPend] with 5 ticks, during which the scanning task does nothing
    and the bitmask does not change, returns at once with success, not
    with a time-out. *)
Lemma TSIPend_pending_notification_no_timeout :
  exists st1 st',
    @TSITask_period low_board 2100 low_idle = Ok st1 /\
    @run_ticks low_board 5 [] st1 = Ok st1 /\
    @TSIPend low_board 5 [] st1 = Ok (1, OS_ERR_NONE, st') /\
    new_events st1 st' = [] /\
    buffer (tsiBuffer st') = buffer (tsiBuffer st1) /\
    tsiSensorFlags st' = tsiSensorFlags st1.
Proof.
  do 2 eexists.
  split; [vm_compute; reflexivity |].
  split; [vm_compute; reflexivity |].
  split; [vm_compute; reflexivity |].
  repeat split; vm_compute; reflexivity.
Qed.

(** C7, amended.  [TSIPend] with a time-out of T ticks returns.  When no
    notification is pending at the call and none is posted within the T
    ticks, the status is the time-out, the statics are what the scanning
    task has made of them in the T ticks, and the buffer still holds what
    it held at the call.  When a notification is pending at the call or is
    posted within the T ticks, the status is success, and the wait has
    ended at the first tick at which a notification was pending.  In both
    cases the value returned is the bitmask that the scanning task had
    last published when the wait ended, and [TSIPend] has changed nothing
    of the statics but the count of pending notifications. *)
Theorem TSIPend_status_and_value {board : Board} tout sched st :
  board_ok board ->
  levels_ok st ->
  exists v err st' stT,
    TSIPend tout sched st = Ok (v, err, st') /\
    run_ticks (Z.to_nat (to_INT16U tout)) sched st = Ok stT /\
    v = to_INT16U (buffer (tsiBuffer st')) /\
    (Ctr (flag (tsiBuffer st)) <= 0 /\ count_posts (new_events st stT) = 0%nat ->
     err = OS_ERR_TIMEOUT /\ st' = stT /\
     buffer (tsiBuffer st') = buffer (tsiBuffer st)) /\
    (0 < Ctr (flag (tsiBuffer st)) \/ count_posts (new_events st stT) <> 0%nat ->
     err = OS_ERR_NONE) /\
    (err = OS_ERR_NONE ->
     exists k stk,
       (k <= Z.to_nat (to_INT16U tout))%nat /\
       run_ticks k sched st = Ok stk /\
       0 < Ctr (flag (tsiBuffer stk)) /\
       (forall j stj, (j < k)%nat -> run_ticks j sched st = Ok stj ->
                      Ctr (flag (tsiBuffer stj)) <= 0) /\
       v = to_INT16U (buffer (tsiBuffer stk)) /\
       st' = set_buffer (mkBuffer (buffer (tsiBuffer stk))
                                  (mkSem (Ctr (flag (tsiBuffer stk)) - 1)))
                        stk).
Proof.
  intros Hb Hlev.
  destruct (OSSemPend_total (Z.to_nat (to_INT16U tout)) sched st Hb Hlev)
    as (err & st' & Hpend).
  destruct (run_ticks_total (Z.to_nat (to_INT16U tout)) sched st Hb Hlev)
    as (stT & Hrun).
  exists (to_INT16U (buffer (tsiBuffer st'))), err, st', stT.
  split; [unfold TSIPend; rewrite Hpend; reflexivity |].
  split; [exact Hrun |]. split; [reflexivity |]. split; [| split].
  - intros [Hctr Hposts].
    destruct (OSSemPend_timeout _ _ _ _ Hctr Hrun Hposts) as [Hpend' Hbuf].
    rewrite Hpend in Hpend'. injection Hpend' as -> ->.
    split; [reflexivity |]. split; [reflexivity |]. now rewrite Hbuf.
  - intros Hwhy.
    destruct (OSSemPend_outcome _ _ _ _ _ Hpend) as (evs & Hlog & _ & Hcase).
    destruct Hcase as [(-> & _) | (_ & Hctr & Hposts & Hrun')]; [reflexivity |].
    rewrite Hrun in Hrun'. injection Hrun' as ->.
    rewrite (new_events_app _ _ _ Hlog) in Hwhy.
    destruct Hwhy as [Hc | Hc]; [lia | contradiction].
  - intros ->.
    destruct (OSSemPend_found _ _ _ _ Hpend)
      as (k & stk & Hk & Hrunk & Hctr & Hfirst & Hst').
    exists k, stk. split; [exact Hk |]. split; [exact Hrunk |].
    split; [exact Hctr |]. split; [exact Hfirst |].
    split; [| exact Hst']. rewrite Hst'. reflexivity.
Qed.

Lemma TSIPend_status_and_value_witness :
  board_ok low_board /\
  levels_ok low_idle /\
  exists v err st' stT,
    @TSIPend low_board 5 [None; Some 2100] low_idle = Ok (v, err, st') /\
    @run_ticks low_board (Z.to_nat (to_INT16U 5)) [None; Some 2100] low_idle =
      Ok stT /\
    v = to_INT16U (buffer (tsiBuffer st')) /\
    err = OS_ERR_NONE /\
    v = 1.
Proof.
  assert (Hb : board_ok low_board)
    by (unfold board_ok, MAX_NUM_ELECTRODES; simpl; lia).
  assert (Hlev : levels_ok low_idle) by reflexivity.
  split; [exact Hb |]. split; [exact Hlev |].
  destruct (@TSIPend_status_and_value low_board 5 [None; Some 2100] low_idle
              Hb Hlev) as (v & err & st' & stT & Hpend & Hrun & Hv & _).
  exists v, err, st', stT. split; [exact Hpend |]. split; [exact Hrun |].
  split; [exact Hv |].
  assert (Hval : @TSIPend low_board 5 [None; Some 2100] low_idle =
                 Ok (1, OS_ERR_NONE, st')).
  { rewrite Hpend. revert Hpend. vm_compute. intros [= <- <- <-]. reflexivity. }
  rewrite Hpend in Hval. injection Hval as -> ->. split; reflexivity.
Defined.

(** ** Width of the buffer *)

(** C10.  [tsiProcScan] compares the 8-bit buffer with the whole 16-bit
    working bitmask and posts exactly when the two differ; what it then
    stores, and what a following [TSIPend] returns, is the working bitmask
    modulo 2^8; a working bitmask of 2^8 or more always differs from the
    buffer; and no value returned by [TSIPend] has a bit set at position 8
    or above, so that the touch bit of a channel from 8 upwards is never
    seen by a consumer. *)
Theorem buffer_is_low_byte_of_flags {board : Board} channel data st st' :
  typed_state st ->
  tsiProcScan channel data st = Ok st' ->
  count_posts (new_events st st') =
    (if buffer (tsiBuffer st) =? tsiSensorFlags st' then 0%nat else 1%nat) /\
  (buffer (tsiBuffer st) <> tsiSensorFlags st' ->
   buffer (tsiBuffer st') = tsiSensorFlags st' mod 2 ^ 8 /\
   forall tout sched, exists st'',
     TSIPend tout sched st' =
     Ok (tsiSensorFlags st' mod 2 ^ 8, OS_ERR_NONE, st'')) /\
  (2 ^ 8 <= tsiSensorFlags st' ->
   buffer (tsiBuffer st) <> tsiSensorFlags st') /\
  (forall tout sched v err st'',
     TSIPend tout sched st' = Ok (v, err, st'') ->
     v = buffer (tsiBuffer st'') /\
     0 <= v < 2 ^ 8 /\
     forall e, 8 <= e -> Z.testbit v e = false).
Proof.
  intros Hty Hrun.
  split; [exact (tsiProcScan_posts _ _ _ _ Hrun) |].
  split; [| split].
  - intros Hne.
    destruct (tsiProcScan_publish _ _ _ _ Hrun Hne) as (Hbuf & Hsem & _).
    split; [exact Hbuf |]. intros tout sched.
    assert (Hp : 0 < Ctr (flag (tsiBuffer st')))
      by (rewrite Hsem; apply OSSemPost_pending).
    eexists. unfold TSIPend. rewrite (OSSemPend_pending _ _ _ Hp). simpl.
    rewrite Hbuf, to_INT16U_small; [reflexivity |].
    pose proof (to_INT8U_range (tsiSensorFlags st')). lia.
  - intros Hwide Heq. destruct Hty as [Hb _]. lia.
  - intros tout sched v err st'' Hpend.
    assert (Hty' : typed_state st').
    { destruct (tsiProcScan_effect _ _ _ _ Hrun) as (_ & _ & _ & _ & H).
      now apply H. }
    destruct (TSIPend_value _ _ _ _ _ _ Hpend) as (_ & _ & Hv).
    destruct (Hv Hty') as [Hrange Hval].
    split; [exact Hval |]. split; [exact Hrange |].
    intros e He. rewrite <- (to_INT8U_small v Hrange), to_INT8U_testbit.
    replace (e <? 8) with false by (symmetry; apply Z.ltb_ge; lia).
    reflexivity.
Qed.

Lemma buffer_is_low_byte_of_flags_witness :
  typed_state (tsiStartScan 12 example_idle) /\
  exists st',
    @tsiProcScan example_board 12 2100 (tsiStartScan 12 example_idle) = Ok st' /\
    tsiSensorFlags st' = 4096 /\
    buffer (tsiBuffer st') = 4096 mod 2 ^ 8 /\
    count_posts (new_events (tsiStartScan 12 example_idle) st') = 1%nat.
Proof.
  assert (Hty : typed_state (tsiStartScan 12 example_idle))
    by (unfold typed_state; simpl; lia).
  split; [exact Hty |].
  eexists. split; [vm_compute; reflexivity |].
  split; [reflexivity |].
  match goal with |- buffer (tsiBuffer ?s) = _ /\ _ =>
    destruct (@buffer_is_low_byte_of_flags example_board 12 2100
                (tsiStartScan 12 example_idle) s Hty eq_refl) as (Hposts & Hpub & _) end.
  split.
  - apply Hpub. vm_compute. discriminate.
  - exact Hposts.
Defined.

(** ** Invariants of the statics *)

Lemma initial_state_levels_ok : levels_ok initial_state.
Proof. reflexivity. Qed.

Lemma initial_state_typed : typed_state initial_state.
Proof. unfold typed_state. simpl. lia. Qed.

Section Invariants.
Context {board : Board}.

(** With a semaphore that holds at most one notification, a call of
    [tsiProcScan] leaves at most one pending, and exactly one when it
    has posted. *)
Lemma tsiProcScan_semaphore_binary channel data st st' :
  0 <= Ctr (flag (tsiBuffer st)) <= 1 ->
  tsiProcScan channel data st = Ok st' ->
  0 <= Ctr (flag (tsiBuffer st')) <= 1 /\
  (buffer (tsiBuffer st) <> tsiSensorFlags st' ->
   Ctr (flag (tsiBuffer st')) = 1).
Proof.
  intros Hbin Hrun.
  destruct (Z.eq_dec (buffer (tsiBuffer st)) (tsiSensorFlags st')) as [He | Hn].
  - destruct (tsiProcScan_no_publish _ _ _ _ Hrun He) as (-> & _).
    split; [exact Hbin | intros H; contradiction].
  - destruct (tsiProcScan_publish _ _ _ _ Hrun Hn) as (_ & -> & _).
    rewrite (OSSemPost_binary _ Hbin). split; [lia | reflexivity].
Qed.

(** A working bitmask that fits the buffer and differs from it is stored
    whole, with one notification posted. *)
Lemma tsiProcScan_publish_whole channel data st st' :
  tsiProcScan channel data st = Ok st' ->
  buffer (tsiBuffer st) <> tsiSensorFlags st' ->
  tsiSensorFlags st' < 2 ^ 8 ->
  buffer (tsiBuffer st') = tsiSensorFlags st' /\
  count_posts (new_events st st') = 1%nat.
Proof.
  intros Hrun Hne Hfit.
  split; [exact (tsiProcScan_publish_fits _ _ _ _ Hrun Hfit) |].
  destruct (tsiProcScan_publish _ _ _ _ Hrun Hne) as (_ & _ & ->). reflexivity.
Qed.

(** Calibration keeps the size of the table. *)
Lemma TSIChCalibration_levels_ok channel data st st' :
  levels_ok st -> TSIChCalibration channel data st = Ok st' -> levels_ok st'.
Proof.
  unfold TSIChCalibration.
  rewrite (await_scan_due _ (scan_due_tsiStartScan channel st)).
  unfold level_at, levels_ok. simpl. intros Hlen Hrun.
  destruct (tsiSensorLevels st !! Z.to_nat channel) as [l |]; [| discriminate].
  simpl in Hrun. injection Hrun as <-. simpl. now rewrite length_insert.
Qed.

End Invariants.

(** * Further properties of the module *)

(** ** Whole runs of the scanning task *)

Section Runs.
Context {board : Board}.

(** The three ways through the switch of [TSITask]. *)
Lemma TSITask_period_cases data st st' :
  TSITask_period data st = Ok st' ->
  (exists st2,
     tsiTaskState st = PROC1START2 /\
     tsiProcScan BRD_PAD1_CH data (tsiStartScan BRD_PAD1_CH st) = Ok st2 /\
     st' = set_task_state PROC2START1 (tsiStartScan BRD_PAD2_CH st2)) \/
  (exists st2,
     tsiTaskState st = PROC2START1 /\
     tsiProcScan BRD_PAD2_CH data (tsiStartScan BRD_PAD1_CH st) = Ok st2 /\
     st' = set_task_state PROC1START2 (tsiStartScan BRD_PAD1_CH st2)) \/
  (tsiTaskState st <> PROC1START2 /\
   tsiTaskState st <> PROC2START1 /\
   st' = set_task_state PROC1START2 (tsiStartScan BRD_PAD1_CH st)).
Proof.
  unfold TSITask_period.
  change (tsiTaskState (tsiStartScan BRD_PAD1_CH st)) with (tsiTaskState st).
  intros Hrun.
  destruct (Z.eqb_spec (tsiTaskState st) PROC1START2) as [Hs1 | Hs1];
    [| destruct (Z.eqb_spec (tsiTaskState st) PROC2START1) as [Hs2 | Hs2]].
  - destruct (tsiProcScan BRD_PAD1_CH data (tsiStartScan BRD_PAD1_CH st))
      as [st2 | |]; simpl in Hrun; try discriminate.
    injection Hrun as <-. left. eauto.
  - destruct (tsiProcScan BRD_PAD2_CH data (tsiStartScan BRD_PAD1_CH st))
      as [st2 | |]; simpl in Hrun; try discriminate.
    injection Hrun as <-. right. left. eauto.
  - injection Hrun as <-. right. right. auto.
Qed.

Lemma TSITask_effect datas : forall st st',
  TSITask datas st = Ok st' -> scanner_effect st (new_events st st') st'.
Proof.
  induction datas as [| data rest IH]; intros st st' Hrun; simpl in Hrun.
  - injection Hrun as <-. rewrite new_events_refl. apply scanner_effect_refl.
  - destruct (TSITask_period data st) as [st1 | |] eqn:Hper;
      simpl in Hrun; try discriminate.
    pose proof (scanner_effect_trans _ _ _ _ _
                  (TSITask_period_effect _ _ _ Hper) (IH _ _ Hrun)) as Heff.
    now rewrite (new_events_app _ _ _ (proj1 Heff)).
Qed.

Lemma TSITask_total datas : forall st,
  board_ok board -> levels_ok st -> exists st', TSITask datas st = Ok st'.
Proof.
  induction datas as [| data rest IH]; intros st Hb Hlev; simpl.
  - now exists st.
  - destruct (TSITask_period_total data st Hb Hlev) as (st1 & evs & Hper & _).
    rewrite Hper. simpl. apply IH; [exact Hb |].
    exact (levels_ok_period _ _ _ Hb Hlev Hper).
Qed.

(** A period never posts more than once. *)
Lemma TSITask_period_posts_le data st st' :
  TSITask_period data st = Ok st' ->
  (count_posts (new_events st st') <= 1)%nat.
Proof.
  intros Hrun.
  assert (Hshape : forall ch nxt st2,
             tsiProcScan ch data (tsiStartScan BRD_PAD1_CH st) = Ok st2 ->
             (count_posts (new_events st (tsiStartScan nxt st2)) <= 1)%nat).
  { intros ch nxt st2 Hproc.
    destruct (tsiProcScan_log _ _ _ _ Hproc) as (posts & Hposts & _ & Hlog).
    rewrite (new_events_app st (tsiStartScan nxt st2)
               (EvStartScan BRD_PAD1_CH :: EvScanRead ch (raw_count data)
                  :: posts ++ [EvStartScan nxt])).
    - destruct Hposts as [-> | ->]; vm_compute; lia.
    - simpl. rewrite Hlog. simpl. now rewrite <- !app_assoc. }
  destruct (TSITask_period_cases _ _ _ Hrun)
    as [(st2 & _ & Hproc & ->) | [(st2 & _ & Hproc & ->) | (_ & _ & ->)]].
  - exact (Hshape _ _ _ Hproc).
  - exact (Hshape _ _ _ Hproc).
  - rewrite (new_events_app st _ [EvStartScan BRD_PAD1_CH]) by reflexivity.
    vm_compute. lia.
Qed.

End Runs.

(** An invariant of the statics that logging and the state variable do not
    touch, and that processing either pad keeps, holds along any run. *)
Section RunInvariant.
Context {board : Board}.
Variable P : tsi_state -> Prop.
Hypothesis P_log : forall e st, P st -> P (log_event e st).
Hypothesis P_task_state : forall s st, P st -> P (set_task_state s st).
Hypothesis P_proc : forall channel data st st',
  channel = BRD_PAD1_CH \/ channel = BRD_PAD2_CH ->
  P st -> tsiProcScan channel data st = Ok st' -> P st'.

Lemma TSITask_period_invariant data st st' :
  P st -> TSITask_period data st = Ok st' -> P st'.
Proof.
  intros HP Hrun.
  destruct (TSITask_period_cases _ _ _ Hrun)
    as [(st2 & _ & Hproc & ->) | [(st2 & _ & Hproc & ->) | (_ & _ & ->)]].
  - apply P_task_state, P_log.
    eapply P_proc; [left; reflexivity | | exact Hproc]. now apply P_log.
  - apply P_task_state, P_log.
    eapply P_proc; [right; reflexivity | | exact Hproc]. now apply P_log.
  - apply P_task_state. now apply P_log.
Qed.

Lemma TSITask_invariant datas : forall st st',
  P st -> TSITask datas st = Ok st' -> P st'.
Proof.
  induction datas as [| data rest IH]; intros st st' HP Hrun; simpl in Hrun.
  - now injection Hrun as <-.
  - destruct (TSITask_period data st) as [st1 | |] eqn:Hper;
      simpl in Hrun; try discriminate.
    eapply IH; [| exact Hrun]. exact (TSITask_period_invariant _ _ _ HP Hper).
Qed.

End RunInvariant.

Section RunFacts.
Context {board : Board}.

(** After a call of [tsiProcScan] the buffer is the low byte of the
    flags, whether the call has published or not. *)
Lemma tsiProcScan_buffer_low_byte channel data st st' :
  0 <= buffer (tsiBuffer st) < 2 ^ 8 ->
  tsiProcScan channel data st = Ok st' ->
  0 <= buffer (tsiBuffer st') < 2 ^ 8 /\
  buffer (tsiBuffer st') = tsiSensorFlags st' mod 2 ^ 8.
Proof.
  intros Hb Hrun.
  destruct (Z.eq_dec (buffer (tsiBuffer st)) (tsiSensorFlags st')) as [He | Hn].
  - destruct (tsiProcScan_no_publish _ _ _ _ Hrun He) as (-> & _).
    split; [exact Hb |]. rewrite <- He. symmetry. now apply Z.mod_small.
  - destruct (tsiProcScan_publish _ _ _ _ Hrun Hn) as (-> & _).
    split; [apply to_INT8U_range | reflexivity].
Qed.

Lemma TSITask_period_state_valid data st st' :
  TSITask_period data st = Ok st' ->
  tsiTaskState st' = PROC1START2 \/ tsiTaskState st' = PROC2START1.
Proof.
  intros Hrun.
  destruct (TSITask_period_cases _ _ _ Hrun)
    as [(st2 & _ & _ & ->) | [(st2 & _ & _ & ->) | (_ & _ & ->)]];
    simpl; auto.
Qed.

Lemma TSITask_state_valid datas : forall st st',
  datas <> [] -> TSITask datas st = Ok st' ->
  tsiTaskState st' = PROC1START2 \/ tsiTaskState st' = PROC2START1.
Proof.
  induction datas as [| data rest IH]; intros st st' Hne Hrun; [congruence |].
  simpl in Hrun.
  destruct (TSITask_period data st) as [st1 | |] eqn:Hper;
    simpl in Hrun; try discriminate.
  destruct rest as [| data2 rest].
  - simpl in Hrun. injection Hrun as <-.
    exact (TSITask_period_state_valid _ _ _ Hper).
  - eapply IH; [discriminate | exact Hrun].
Qed.

Lemma TSITask_posts_le datas : forall st st',
  TSITask datas st = Ok st' ->
  (count_posts (new_events st st') <= length datas)%nat.
Proof.
  induction datas as [| data rest IH]; intros st st' Hrun; simpl in Hrun.
  - injection Hrun as <-. rewrite new_events_refl. auto.
  - destruct (TSITask_period data st) as [st1 | |] eqn:Hper;
      simpl in Hrun; try discriminate.
    pose proof (TSITask_period_effect _ _ _ Hper) as (Hlog1 & _).
    pose proof (TSITask_effect _ _ _ Hrun) as (Hlog2 & _).
    rewrite (new_events_app st st' (new_events st st1 ++ new_events st1 st'))
      by (rewrite Hlog2, Hlog1; now rewrite app_assoc).
    rewrite count_posts_app.
    pose proof (TSITask_period_posts_le _ _ _ Hper).
    pose proof (IH _ _ Hrun). simpl. lia.
Qed.

End RunFacts.

(** X1.  Along any run of the scanning task the buffer is the low byte
    of the flags: when this holds before the first period, with the buffer
    an 8-bit value, it holds after the last. *)
Theorem TSITask_buffer_low_byte {board : Board} datas st st' :
  0 <= buffer (tsiBuffer st) < 2 ^ 8 ->
  buffer (tsiBuffer st) = tsiSensorFlags st mod 2 ^ 8 ->
  TSITask datas st = Ok st' ->
  0 <= buffer (tsiBuffer st') < 2 ^ 8 /\
  buffer (tsiBuffer st') = tsiSensorFlags st' mod 2 ^ 8.
Proof.
  intros Hb Heq Hrun.
  apply (TSITask_invariant
           (fun s => 0 <= buffer (tsiBuffer s) < 2 ^ 8 /\
                     buffer (tsiBuffer s) = tsiSensorFlags s mod 2 ^ 8))
    with (datas := datas) (st := st); auto.
  intros channel data s s' _ [Hbs _] Hproc.
  exact (tsiProcScan_buffer_low_byte _ _ _ _ Hbs Hproc).
Qed.

Lemma TSITask_buffer_low_byte_witness :
  0 <= buffer (tsiBuffer example_idle) < 2 ^ 8 /\
  buffer (tsiBuffer example_idle) = tsiSensorFlags example_idle mod 2 ^ 8 /\
  exists st',
    @TSITask example_board [2100; 2100; 100] example_idle = Ok st' /\
    buffer (tsiBuffer st') = tsiSensorFlags st' mod 2 ^ 8.
Proof.
  assert (Hb : 0 <= buffer (tsiBuffer example_idle) < 2 ^ 8) by (simpl; lia).
  split; [exact Hb |]. split; [reflexivity |].
  eexists. split; [vm_compute; reflexivity |].
  apply (@TSITask_buffer_low_byte example_board [2100; 2100; 100] example_idle);
    [exact Hb | reflexivity | vm_compute; reflexivity].
Defined.

(** X2.  With both pads inside the level table, a run of the scanning
    task over any readings never leaves the table: it runs to its end,
    leaves the calibration levels as they were, keeps the values of the
    statics within their C types, and after at least one period the state
    variable is one of the two enumerators, whatever it was before. *)
Theorem TSITask_run_safe {board : Board} datas st :
  board_ok board ->
  levels_ok st ->
  exists st',
    TSITask datas st = Ok st' /\
    tsiSensorLevels st' = tsiSensorLevels st /\
    (typed_state st -> typed_state st') /\
    (datas <> [] ->
     tsiTaskState st' = PROC1START2 \/ tsiTaskState st' = PROC2START1).
Proof.
  intros Hb Hlev.
  destruct (TSITask_total datas st Hb Hlev) as [st' Hrun].
  exists st'. split; [exact Hrun |].
  destruct (TSITask_effect _ _ _ Hrun) as (_ & Hlv & _ & _ & Hty).
  split; [exact Hlv |]. split; [exact Hty |].
  intros Hne. exact (TSITask_state_valid _ _ _ Hne Hrun).
Qed.

Lemma TSITask_run_safe_witness :
  board_ok example_board /\
  levels_ok (set_task_state 7 example_idle) /\
  exists st',
    @TSITask example_board [100; 2100] (set_task_state 7 example_idle) = Ok st' /\
    tsiSensorLevels st' = tsiSensorLevels example_idle /\
    (tsiTaskState st' = PROC1START2 \/ tsiTaskState st' = PROC2START1).
Proof.
  assert (Hb : board_ok example_board)
    by (unfold board_ok, MAX_NUM_ELECTRODES; simpl; lia).
  assert (Hlev : levels_ok (set_task_state 7 example_idle)) by reflexivity.
  split; [exact Hb |]. split; [exact Hlev |].
  destruct (@TSITask_run_safe example_board [100; 2100]
              (set_task_state 7 example_idle) Hb Hlev)
    as (st' & Hrun & Hlv & _ & Hvalid).
  exists st'. split; [exact Hrun |]. split; [exact Hlv |].
  apply Hvalid. discriminate.
Defined.

(** X3.  The scanning task calls [OSSemPost] at most once per period: a
    run of N periods posts at most N notifications. *)
Theorem TSITask_posts_at_most_periods {board : Board} datas st st' :
  TSITask datas st = Ok st' ->
  (count_posts (new_events st st') <= length datas)%nat.
Proof. apply TSITask_posts_le. Qed.

Lemma TSITask_posts_at_most_periods_witness :
  exists st',
    @TSITask example_board [2100; 100; 2100] example_idle = Ok st' /\
    (count_posts (new_events example_idle st') <= 3)%nat.
Proof.
  eexists. split; [vm_compute; reflexivity |].
  apply (@TSITask_posts_at_most_periods example_board [2100; 100; 2100]
           example_idle). vm_compute. reflexivity.
Defined.

(** ** Untouched pads *)

Section Quiet.
Context {board : Board}.

Lemma tsiProcScan_quiet channel data st l :
  scan_due st = true ->
  tsiSensorLevels st !! Z.to_nat channel = Some l ->
  tsiSensorFlags st = 0 ->
  buffer (tsiBuffer st) = 0 ->
  raw_count data <= threshold l ->
  tsiProcScan channel data st =
  Ok (set_flags 0 (log_event (EvScanRead channel (raw_count data)) st)).
Proof.
  intros Hdue Hl Hf Hb Hle.
  assert (Hw : working_flags channel data l (tsiSensorFlags st) = 0).
  { unfold working_flags. apply Z.ltb_ge in Hle. rewrite Hle, Hf.
    now rewrite Z.land_0_l. }
  rewrite (tsiProcScan_unchanged channel data st l Hdue Hl) by congruence.
  now rewrite Hw.
Qed.

Lemma TSITask_period_quiet data st l1 l2 :
  tsiSensorLevels st !! Z.to_nat BRD_PAD1_CH = Some l1 ->
  tsiSensorLevels st !! Z.to_nat BRD_PAD2_CH = Some l2 ->
  tsiSensorFlags st = 0 ->
  buffer (tsiBuffer st) = 0 ->
  raw_count data <= threshold l1 /\ raw_count data <= threshold l2 ->
  exists st' evs,
    TSITask_period data st = Ok st' /\
    io_log st' = io_log st ++ evs /\
    count_posts evs = 0%nat /\
    tsiSensorLevels st' = tsiSensorLevels st /\
    tsiSensorFlags st' = 0 /\
    tsiBuffer st' = tsiBuffer st.
Proof.
  intros Hl1 Hl2 Hf Hb [Hle1 Hle2].
  pose proof (tsiProcScan_quiet BRD_PAD1_CH data (tsiStartScan BRD_PAD1_CH st)
                l1 (scan_due_tsiStartScan _ _) Hl1 Hf Hb Hle1) as Hproc1.
  pose proof (tsiProcScan_quiet BRD_PAD2_CH data (tsiStartScan BRD_PAD1_CH st)
                l2 (scan_due_tsiStartScan _ _) Hl2 Hf Hb Hle2) as Hproc2.
  unfold TSITask_period.
  change (tsiTaskState (tsiStartScan BRD_PAD1_CH st)) with (tsiTaskState st).
  destruct (tsiTaskState st =? PROC1START2);
    [| destruct (tsiTaskState st =? PROC2START1)].
  - rewrite Hproc1. simpl. eexists. eexists. split; [reflexivity |]. simpl.
    split; [rewrite <- !app_assoc; reflexivity |].
    repeat split; reflexivity.
  - rewrite Hproc2. simpl. eexists. eexists. split; [reflexivity |]. simpl.
    split; [rewrite <- !app_assoc; reflexivity |].
    repeat split; reflexivity.
  - eexists. eexists. split; [reflexivity |]. simpl.
    split; [reflexivity |]. repeat split; auto.
Qed.

Lemma TSITask_quiet datas : forall st l1 l2,
  tsiSensorLevels st !! Z.to_nat BRD_PAD1_CH = Some l1 ->
  tsiSensorLevels st !! Z.to_nat BRD_PAD2_CH = Some l2 ->
  tsiSensorFlags st = 0 ->
  buffer (tsiBuffer st) = 0 ->
  Forall (fun data => raw_count data <= threshold l1 /\
                      raw_count data <= threshold l2) datas ->
  exists st' evs,
    TSITask datas st = Ok st' /\
    io_log st' = io_log st ++ evs /\
    count_posts evs = 0%nat /\
    tsiSensorFlags st' = 0 /\
    tsiBuffer st' = tsiBuffer st.
Proof.
  induction datas as [| data rest IH]; intros st l1 l2 Hl1 Hl2 Hf Hb Hall.
  - exists st, []. rewrite app_nil_r. repeat split; auto.
  - inversion Hall as [| ? ? Hdata Hrest]; subst.
    destruct (TSITask_period_quiet data st l1 l2 Hl1 Hl2 Hf Hb Hdata)
      as (st1 & e1 & Hper & Hlog1 & Hc1 & Hlv1 & Hf1 & Hb1).
    destruct (IH st1 l1 l2) as (st' & e2 & Hrun & Hlog2 & Hc2 & Hf2 & Hb2);
      [now rewrite Hlv1 | now rewrite Hlv1 | exact Hf1 | now rewrite Hb1
      | exact Hrest |].
    exists st', (e1 ++ e2). simpl. rewrite Hper. simpl.
    split; [exact Hrun |].
    split; [rewrite Hlog2, Hlog1; now rewrite app_assoc |].
    rewrite count_posts_app, Hc1, Hc2.
    repeat split; [exact Hf2 | congruence].
Qed.

End Quiet.

(** X4.  With no flag set and the buffer at 0, a run of the scanning
    task whose readings never exceed the thresholds of the two pads posts
    no notification, leaves the flags at 0 and does not touch the buffer
    or its semaphore. *)
Theorem TSITask_untouched_stays_quiet {board : Board} datas st l1 l2 :
  tsiSensorLevels st !! Z.to_nat BRD_PAD1_CH = Some l1 ->
  tsiSensorLevels st !! Z.to_nat BRD_PAD2_CH = Some l2 ->
  tsiSensorFlags st = 0 ->
  buffer (tsiBuffer st) = 0 ->
  Forall (fun data => raw_count data <= threshold l1 /\
                      raw_count data <= threshold l2) datas ->
  exists st',
    TSITask datas st = Ok st' /\
    count_posts (new_events st st') = 0%nat /\
    tsiSensorFlags st' = 0 /\
    tsiBuffer st' = tsiBuffer st.
Proof.
  intros Hl1 Hl2 Hf Hb Hall.
  destruct (TSITask_quiet datas st l1 l2 Hl1 Hl2 Hf Hb Hall)
    as (st' & evs & Hrun & Hlog & Hc & Hf' & Hb').
  exists st'. rewrite (new_events_app _ _ _ Hlog). auto.
Qed.

Lemma TSITask_untouched_stays_quiet_witness :
  tsiSensorLevels example_idle !! Z.to_nat (@BRD_PAD1_CH example_board) =
    Some example_level /\
  tsiSensorLevels example_idle !! Z.to_nat (@BRD_PAD2_CH example_board) =
    Some example_level /\
  tsiSensorFlags example_idle = 0 /\
  buffer (tsiBuffer example_idle) = 0 /\
  Forall (fun data => @raw_count example_board data <= threshold example_level /\
                      @raw_count example_board data <= threshold example_level)
         [1000; 2048; 0] /\
  exists st',
    @TSITask example_board [1000; 2048; 0] example_idle = Ok st' /\
    count_posts (new_events example_idle st') = 0%nat.
Proof.
  assert (Hall : Forall (fun data =>
             @raw_count example_board data <= threshold example_level /\
             @raw_count example_board data <= threshold example_level)
           [1000; 2048; 0])
    by (repeat constructor; vm_compute; discriminate).
  split; [reflexivity |]. split; [reflexivity |]. split; [reflexivity |].
  split; [reflexivity |]. split; [exact Hall |].
  destruct (@TSITask_untouched_stays_quiet example_board [1000; 2048; 0]
              example_idle example_level example_level
              eq_refl eq_refl eq_refl eq_refl Hall)
    as (st' & Hrun & Hc & _).
  exists st'. auto.
Defined.

(** ** Pads on channels below 8 *)

Section LowChannels.
Context {board : Board}.

Lemma testbit_INT8U_high f i :
  0 <= f < 2 ^ 8 -> 8 <= i -> Z.testbit f i = false.
Proof.
  intros Hf Hi. rewrite <- (to_INT8U_small f Hf), to_INT8U_testbit.
  replace (i <? 8) with false by (symmetry; apply Z.ltb_ge; lia).
  reflexivity.
Qed.

Lemma working_flags_low channel data l flags :
  0 <= channel < 8 -> 0 <= flags < 2 ^ 8 ->
  0 <= working_flags channel data l flags < 2 ^ 8.
Proof.
  intros Hch Hf.
  assert (Hw : to_INT8U (working_flags channel data l flags) =
               working_flags channel data l flags).
  { apply Z.bits_inj'. intros i Hi. rewrite to_INT8U_testbit.
    destruct (Z.ltb_spec i 8) as [Hlt | Hge]; [reflexivity |].
    simpl. symmetry. rewrite working_flags_testbit by lia.
    rewrite (testbit_INT8U_high flags i Hf Hge).
    replace (i =? channel) with false by (symmetry; apply Z.eqb_neq; lia).
    destruct (threshold l <? raw_count data); now rewrite andb_false_r. }
  rewrite <- Hw. apply to_INT8U_range.
Qed.

Lemma tsiProcScan_low channel data st st' :
  0 <= channel < 8 ->
  buffer (tsiBuffer st) = tsiSensorFlags st ->
  0 <= tsiSensorFlags st < 2 ^ 8 ->
  tsiProcScan channel data st = Ok st' ->
  buffer (tsiBuffer st') = tsiSensorFlags st' /\
  0 <= tsiSensorFlags st' < 2 ^ 8.
Proof.
  intros Hch Hbuf Hf Hrun.
  destruct (tsiProcScan_level _ _ _ _ Hrun) as [l Hl].
  destruct (tsiProcScan_fields _ _ _ _ _ Hl Hrun) as (_ & _ & Hflags).
  pose proof (working_flags_low channel data l _ Hch Hf) as Hlow.
  rewrite <- Hflags in Hlow. split; [| exact Hlow].
  apply (tsiProcScan_publish_fits _ _ _ _ Hrun). lia.
Qed.

End LowChannels.

(** X5.  On a board whose two pads are on channels below 8, the buffer
    and the flags agree along any run of the scanning task: when the
    buffer equals the flags and the flags fit 8 bits before the first
    period, the same holds after the last. *)
Theorem TSITask_low_channels_buffer_is_flags {board : Board} datas st st' :
  0 <= BRD_PAD1_CH < 8 ->
  0 <= BRD_PAD2_CH < 8 ->
  buffer (tsiBuffer st) = tsiSensorFlags st ->
  0 <= tsiSensorFlags st < 2 ^ 8 ->
  TSITask datas st = Ok st' ->
  buffer (tsiBuffer st') = tsiSensorFlags st' /\
  0 <= tsiSensorFlags st' < 2 ^ 8.
Proof.
  intros Hp1 Hp2 Hbuf Hf Hrun.
  apply (TSITask_invariant
           (fun s => buffer (tsiBuffer s) = tsiSensorFlags s /\
                     0 <= tsiSensorFlags s < 2 ^ 8))
    with (datas := datas) (st := st); auto.
  intros channel data s s' Hch [Hbs Hfs] Hproc.
  apply (tsiProcScan_low channel data s s'); auto.
  destruct Hch as [-> | ->]; assumption.
Qed.

Lemma TSITask_low_channels_buffer_is_flags_witness :
  0 <= @BRD_PAD1_CH low_board < 8 /\
  0 <= @BRD_PAD2_CH low_board < 8 /\
  buffer (tsiBuffer low_idle) = tsiSensorFlags low_idle /\
  0 <= tsiSensorFlags low_idle < 2 ^ 8 /\
  exists st',
    @TSITask low_board [2100; 2100; 100] low_idle = Ok st' /\
    buffer (tsiBuffer st') = tsiSensorFlags st'.
Proof.
  assert (H1 : 0 <= @BRD_PAD1_CH low_board < 8) by (simpl; lia).
  assert (H2 : 0 <= @BRD_PAD2_CH low_board < 8) by (simpl; lia).
  assert (Hf : 0 <= tsiSensorFlags low_idle < 2 ^ 8) by (simpl; lia).
  split; [exact H1 |]. split; [exact H2 |]. split; [reflexivity |].
  split; [exact Hf |].
  eexists. split; [vm_compute; reflexivity |].
  apply (@TSITask_low_channels_buffer_is_flags low_board [2100; 2100; 100]
           low_idle); [exact H1 | exact H2 | reflexivity | exact Hf |].
  vm_compute. reflexivity.
Defined.

(** X6.  For a channel below 8, with the buffer equal to flags that fit
    8 bits, [tsiProcScan] posts exactly when the call changes the flags:
    one notification when they change, none when they do not. *)
Theorem tsiProcScan_low_channel_posts_on_change {board : Board}
    channel data st st' :
  0 <= channel < 8 ->
  buffer (tsiBuffer st) = tsiSensorFlags st ->
  0 <= tsiSensorFlags st < 2 ^ 8 ->
  tsiProcScan channel data st = Ok st' ->
  count_posts (new_events st st') =
    (if tsiSensorFlags st =? tsiSensorFlags st' then 0%nat else 1%nat) /\
  buffer (tsiBuffer st') = tsiSensorFlags st'.
Proof.
  intros Hch Hbuf Hf Hrun.
  rewrite (tsiProcScan_posts _ _ _ _ Hrun), Hbuf. split; [reflexivity |].
  exact (proj1 (tsiProcScan_low _ _ _ _ Hch Hbuf Hf Hrun)).
Qed.

Lemma tsiProcScan_low_channel_posts_on_change_witness :
  0 <= 0 < 8 /\
  buffer (tsiBuffer (tsiStartScan 0 low_idle)) = tsiSensorFlags (tsiStartScan 0 low_idle) /\
  0 <= tsiSensorFlags (tsiStartScan 0 low_idle) < 2 ^ 8 /\
  exists st',
    @tsiProcScan low_board 0 2100 (tsiStartScan 0 low_idle) = Ok st' /\
    count_posts (new_events (tsiStartScan 0 low_idle) st') = 1%nat /\
    buffer (tsiBuffer st') = 1.
Proof.
  assert (Hch : 0 <= 0 < 8) by lia.
  assert (Hf : 0 <= tsiSensorFlags (tsiStartScan 0 low_idle) < 2 ^ 8) by (simpl; lia).
  split; [exact Hch |]. split; [reflexivity |]. split; [exact Hf |].
  eexists. split; [vm_compute; reflexivity |].
  match goal with |- count_posts (new_events _ ?s) = _ /\ _ =>
    destruct (@tsiProcScan_low_channel_posts_on_change low_board 0 2100
                (tsiStartScan 0 low_idle) s Hch eq_refl Hf eq_refl) as [Hc Hb] end.
  split; [exact Hc | exact Hb].
Defined.

(** ** The flags after one call *)

Section FlagValues.
Context {board : Board}.

Lemma testbit_INT16U_high f i :
  0 <= f < 2 ^ 16 -> 16 <= i -> Z.testbit f i = false.
Proof.
  intros Hf Hi. rewrite <- (to_INT16U_small f Hf), to_INT16U_testbit.
  replace (i <? 16) with false by (symmetry; apply Z.ltb_ge; lia).
  reflexivity.
Qed.

Lemma channel_mask_value channel :
  0 <= channel < 16 -> to_INT16U (Z.shiftl 1 channel) = 2 ^ channel.
Proof.
  intros Hch. rewrite Z.shiftl_1_l. apply to_INT16U_small.
  split; [apply Z.pow_nonneg; lia | apply Z.pow_lt_mono_r; lia].
Qed.

Lemma working_flags_clear channel data l :
  0 <= channel < 16 ->
  working_flags channel data l 0 =
  if threshold l <? raw_count data then 2 ^ channel else 0.
Proof.
  intros Hch. unfold working_flags. rewrite channel_mask_value by exact Hch.
  destruct (threshold l <? raw_count data).
  - rewrite Z.lor_0_l. rewrite <- (channel_mask_value channel Hch).
    unfold to_INT16U. apply Z.mod_mod. lia.
  - now rewrite Z.land_0_l.
Qed.

Lemma working_flags_touch channel data l flags :
  0 <= channel < 16 -> 0 <= flags < 2 ^ 16 ->
  threshold l < raw_count data ->
  working_flags channel data l flags = Z.lor flags (2 ^ channel).
Proof.
  intros Hch Hf Hgt. apply Z.bits_inj'. intros i Hi.
  rewrite working_flags_testbit by exact Hch.
  apply Z.ltb_lt in Hgt. rewrite Hgt.
  rewrite Z.lor_spec, Z.pow2_bits_eqb by lia.
  rewrite (Z.eqb_sym channel i).
  destruct (Z.ltb_spec i 16) as [Hlt | Hge]; [reflexivity |].
  rewrite (testbit_INT16U_high flags i Hf Hge).
  replace (i =? channel) with false by (symmetry; apply Z.eqb_neq; lia).
  reflexivity.
Qed.

End FlagValues.

(** X7.  From flags that are all clear, a call of [tsiProcScan] on a
    channel of the table leaves exactly the channel's bit when the count
    is above the threshold and leaves the flags clear otherwise; a count
    equal to the threshold is not a touch. *)
Theorem tsiProcScan_from_clear_flags {board : Board} channel data st st' l :
  0 <= channel < 16 ->
  tsiSensorLevels st !! Z.to_nat channel = Some l ->
  tsiSensorFlags st = 0 ->
  tsiProcScan channel data st = Ok st' ->
  tsiSensorFlags st' =
    (if threshold l <? raw_count data then 2 ^ channel else 0) /\
  (raw_count data = threshold l -> tsiSensorFlags st' = 0).
Proof.
  intros Hch Hl Hf Hrun.
  destruct (tsiProcScan_fields _ _ _ _ _ Hl Hrun) as (_ & _ & ->).
  rewrite Hf, working_flags_clear by exact Hch.
  split; [reflexivity |]. intros ->. now rewrite Z.ltb_irrefl.
Qed.

Lemma tsiProcScan_from_clear_flags_witness :
  0 <= 12 < 16 /\
  tsiSensorLevels (tsiStartScan 12 example_idle) !! Z.to_nat 12 = Some example_level /\
  tsiSensorFlags (tsiStartScan 12 example_idle) = 0 /\
  exists st',
    @tsiProcScan example_board 12 2048 (tsiStartScan 12 example_idle) = Ok st' /\
    tsiSensorFlags st' = 0.
Proof.
  assert (Hch : 0 <= 12 < 16) by lia.
  split; [exact Hch |]. split; [reflexivity |]. split; [reflexivity |].
  eexists. split; [vm_compute; reflexivity |].
  match goal with |- tsiSensorFlags ?s = 0 =>
    destruct (@tsiProcScan_from_clear_flags example_board 12 2048 (tsiStartScan 12 example_idle)
                s example_level Hch eq_refl eq_refl eq_refl) as [_ Hz] end.
  apply Hz. reflexivity.
Defined.

(** X8.  A count above the threshold adds the channel's bit to the
    flags and leaves every other flag as it was: the flags become the
    bitwise or of the old flags and 2^channel. *)
Theorem tsiProcScan_touch_adds_bit {board : Board} channel data st st' l :
  0 <= channel < 16 ->
  tsiSensorLevels st !! Z.to_nat channel = Some l ->
  0 <= tsiSensorFlags st < 2 ^ 16 ->
  threshold l < raw_count data ->
  tsiProcScan channel data st = Ok st' ->
  tsiSensorFlags st' = Z.lor (tsiSensorFlags st) (2 ^ channel).
Proof.
  intros Hch Hl Hf Hgt Hrun.
  destruct (tsiProcScan_fields _ _ _ _ _ Hl Hrun) as (_ & _ & ->).
  now apply working_flags_touch.
Qed.

Lemma tsiProcScan_touch_adds_bit_witness :
  0 <= 11 < 16 /\
  exists st1 st2,
    @TSITask_period example_board 2100 example_idle = Ok st1 /\
    tsiSensorLevels (tsiStartScan 12 st1) !! Z.to_nat 11 = Some example_level /\
    0 <= tsiSensorFlags (tsiStartScan 12 st1) < 2 ^ 16 /\
    threshold example_level < @raw_count example_board 2100 /\
    @tsiProcScan example_board 11 2100 (tsiStartScan 12 st1) = Ok st2 /\
    tsiSensorFlags st2 = Z.lor 4096 2048.
Proof.
  assert (Hch : 0 <= 11 < 16) by lia.
  split; [exact Hch |].
  eexists. eexists. split; [vm_compute; reflexivity |].
  split; [reflexivity |].
  match goal with
  | |- (0 <= tsiSensorFlags ?s1 < _) /\ _ /\ _ = Ok ?s2 /\ _ =>
    assert (Hf : 0 <= tsiSensorFlags s1 < 2 ^ 16) by (simpl; lia);
    assert (Hgt : threshold example_level < @raw_count example_board 2100)
      by (vm_compute; reflexivity);
    split; [exact Hf |]; split; [exact Hgt |];
    split; [vm_compute; reflexivity |];
    apply (@tsiProcScan_touch_adds_bit example_board 11 2100 s1 _ example_level
             Hch eq_refl Hf Hgt)
  end.
  vm_compute. reflexivity.
Defined.

(** ** What initialisation establishes *)

(** The statics and the log when [TSIInit] has gone through. *)
Lemma TSIInit_result {board : Board} fuel data1 data2 sem_err st :
  board_ok board ->
  BRD_PAD1_CH <> BRD_PAD2_CH ->
  levels_ok st ->
  exists st',
    TSIInit (S fuel) data1 data2 sem_err OS_ERR_NONE st = Ok st' /\
    tsiSensorLevels st' !! Z.to_nat BRD_PAD1_CH =
      Some (mkLevel (raw_count data1) E1_TOUCH_OFFSET
                    ((raw_count data1 + E1_TOUCH_OFFSET) mod 2 ^ 16)) /\
    tsiSensorLevels st' !! Z.to_nat BRD_PAD2_CH =
      Some (mkLevel (raw_count data2) E2_TOUCH_OFFSET
                    ((raw_count data2 + E2_TOUCH_OFFSET) mod 2 ^ 16)) /\
    (forall i : nat,
       i <> Z.to_nat BRD_PAD1_CH -> i <> Z.to_nat BRD_PAD2_CH ->
       tsiSensorLevels st' !! i = tsiSensorLevels st !! i) /\
    levels_ok st' /\
    tsiBuffer st' = mkBuffer 0 (mkSem 0) /\
    tsiSensorFlags st' = tsiSensorFlags st /\
    tsiTaskState st' = tsiTaskState st /\
    new_events st st' =
      [EvStartScan BRD_PAD1_CH; EvScanRead BRD_PAD1_CH (raw_count data1);
       EvStartScan BRD_PAD2_CH; EvScanRead BRD_PAD2_CH (raw_count data2)].
Proof.
  intros [Hp1 Hp2] Hne Hlev.
  assert (Hn : Z.to_nat BRD_PAD1_CH <> Z.to_nat BRD_PAD2_CH) by lia.
  assert (Hlt1 : (Z.to_nat BRD_PAD1_CH < length (tsiSensorLevels st))%nat)
    by (rewrite Hlev; unfold MAX_NUM_ELECTRODES in *; lia).
  assert (Hlt2 : (Z.to_nat BRD_PAD2_CH < length (tsiSensorLevels st))%nat)
    by (rewrite Hlev; unfold MAX_NUM_ELECTRODES in *; lia).
  destruct (levels_ok_lookup st _ Hlev Hp1) as [l1 Hl1].
  destruct (levels_ok_lookup st _ Hlev Hp2) as [l2 Hl2].
  unfold TSIInit, level_at. rewrite Hl1. cbn [bind tsiSensorLevels set_levels].
  rewrite list_lookup_insert_ne, Hl2 by exact Hn. cbn [bind].
  match goal with |- context [TSIChCalibration BRD_PAD1_CH data1 ?s] =>
    assert (HlA : tsiSensorLevels s !! Z.to_nat BRD_PAD1_CH =
                  Some (mkLevel (baseline l1) E1_TOUCH_OFFSET (threshold l1)))
  end.
  { cbn [tsiSensorLevels set_levels].
    rewrite list_lookup_insert_ne by congruence.
    now apply list_lookup_insert_eq. }
  rewrite (TSIChCalibration_Ok _ _ _ _ HlA). cbn [bind].
  match goal with |- context [TSIChCalibration BRD_PAD2_CH data2 ?s] =>
    assert (HlB : tsiSensorLevels s !! Z.to_nat BRD_PAD2_CH =
                  Some (mkLevel (baseline l2) E2_TOUCH_OFFSET (threshold l2)))
  end.
  { cbn [tsiSensorLevels set_levels log_event tsiStartScan].
    rewrite list_lookup_insert_ne by exact Hn.
    apply list_lookup_insert_eq. now rewrite length_insert. }
  rewrite (TSIChCalibration_Ok _ _ _ _ HlB). cbn [bind].
  eexists. split; [reflexivity |].
  cbn [tsiSensorLevels tsiBuffer tsiSensorFlags tsiTaskState io_log
       set_levels set_buffer log_event tsiStartScan baseline offset
       OSSemCreate buffer flag].
  split.
  { rewrite list_lookup_insert_ne by congruence.
    apply list_lookup_insert_eq. now rewrite !length_insert. }
  split.
  { apply list_lookup_insert_eq. now rewrite !length_insert. }
  split.
  { intros i Hi1 Hi2.
    rewrite list_lookup_insert_ne by congruence.
    rewrite list_lookup_insert_ne by congruence.
    rewrite list_lookup_insert_ne by congruence.
    now rewrite list_lookup_insert_ne by congruence. }
  split; [unfold levels_ok; simpl; rewrite !length_insert; exact Hlev |].
  split; [reflexivity |]. split; [reflexivity |]. split; [reflexivity |].
  apply new_events_app. simpl. now rewrite <- ?app_assoc.
Qed.

(** X9.  With two distinct pads inside the level table and no error
    from [OSTaskCreate], [TSIInit] returns after one turn of its trap;
    each pad then has the count of its own calibration scan as baseline,
    the offset 0x0400 and the threshold baseline + 0x0400 modulo 2^16; the
    levels of all other channels, the flags and the state variable are as
    before; the buffer is 0 with no notification pending; and the only
    scans started are the two calibration scans, each awaited before the
    next call. *)
Theorem TSIInit_establishes {board : Board} fuel data1 data2 sem_err st :
  board_ok board ->
  BRD_PAD1_CH <> BRD_PAD2_CH ->
  levels_ok st ->
  exists st',
    TSIInit (S fuel) data1 data2 sem_err OS_ERR_NONE st = Ok st' /\
    tsiSensorLevels st' !! Z.to_nat BRD_PAD1_CH =
      Some (mkLevel (raw_count data1) E1_TOUCH_OFFSET
                    ((raw_count data1 + E1_TOUCH_OFFSET) mod 2 ^ 16)) /\
    tsiSensorLevels st' !! Z.to_nat BRD_PAD2_CH =
      Some (mkLevel (raw_count data2) E2_TOUCH_OFFSET
                    ((raw_count data2 + E2_TOUCH_OFFSET) mod 2 ^ 16)) /\
    (forall i : nat,
       i <> Z.to_nat BRD_PAD1_CH -> i <> Z.to_nat BRD_PAD2_CH ->
       tsiSensorLevels st' !! i = tsiSensorLevels st !! i) /\
    levels_ok st' /\
    tsiBuffer st' = mkBuffer 0 (mkSem 0) /\
    tsiSensorFlags st' = tsiSensorFlags st /\
    tsiTaskState st' = tsiTaskState st /\
    new_events st st' =
      [EvStartScan BRD_PAD1_CH; EvScanRead BRD_PAD1_CH (raw_count data1);
       EvStartScan BRD_PAD2_CH; EvScanRead BRD_PAD2_CH (raw_count data2)].
Proof. apply TSIInit_result. Qed.

Lemma TSIInit_establishes_witness :
  board_ok example_board /\
  @BRD_PAD1_CH example_board <> @BRD_PAD2_CH example_board /\
  levels_ok initial_state /\
  exists st',
    @TSIInit example_board 1 1500 900 (OS_ERR_OTHER 3) OS_ERR_NONE initial_state =
      Ok st' /\
    tsiSensorLevels st' !! 12%nat = Some (mkLevel 1500 1024 2524) /\
    tsiSensorLevels st' !! 11%nat = Some (mkLevel 900 1024 1924).
Proof.
  assert (Hb : board_ok example_board)
    by (unfold board_ok, MAX_NUM_ELECTRODES; simpl; lia).
  assert (Hne : @BRD_PAD1_CH example_board <> @BRD_PAD2_CH example_board)
    by (simpl; lia).
  split; [exact Hb |]. split; [exact Hne |]. split; [reflexivity |].
  destruct (@TSIInit_establishes example_board 0 1500 900 (OS_ERR_OTHER 3)
              initial_state Hb Hne initial_state_levels_ok)
    as (st' & Hrun & Hl1 & Hl2 & _).
  exists st'. split; [exact Hrun |]. split; [exact Hl1 | exact Hl2].
Defined.

(** ** Calibration among the other operations *)

Section CalibrationFrame.
Context {board : Board}.

(** Calibration writes one entry of the level table and nothing else of
    the statics. *)
Lemma TSIChCalibration_frame channel data st st' :
  TSIChCalibration channel data st = Ok st' ->
  tsiBuffer st' = tsiBuffer st /\
  tsiSensorFlags st' = tsiSensorFlags st /\
  tsiTaskState st' = tsiTaskState st /\
  count_posts (new_events st st') = 0%nat.
Proof.
  intros Hrun. unfold TSIChCalibration in Hrun.
  rewrite (await_scan_due _ (scan_due_tsiStartScan channel st)) in Hrun.
  unfold level_at in Hrun. simpl in Hrun.
  destruct (tsiSensorLevels st !! Z.to_nat channel) as [l |]; [| discriminate].
  simpl in Hrun. injection Hrun as <-. simpl. repeat split.
  rewrite (new_events_app st _
             [EvStartScan channel; EvScanRead channel (raw_count data)]).
  - reflexivity.
  - simpl. now rewrite <- app_assoc.
Qed.

End CalibrationFrame.

(** X10.  Calibrating two different channels of the table gives the
    same level table in either order, and neither order touches the
    buffer, its semaphore, the flags or the state variable, or posts a
    notification. *)
Theorem TSIChCalibration_commutes {board : Board} ch1 ch2 data1 data2 st l1 l2 :
  Z.to_nat ch1 <> Z.to_nat ch2 ->
  tsiSensorLevels st !! Z.to_nat ch1 = Some l1 ->
  tsiSensorLevels st !! Z.to_nat ch2 = Some l2 ->
  exists sa sa' sb sb',
    TSIChCalibration ch1 data1 st = Ok sa /\
    TSIChCalibration ch2 data2 sa = Ok sa' /\
    TSIChCalibration ch2 data2 st = Ok sb /\
    TSIChCalibration ch1 data1 sb = Ok sb' /\
    tsiSensorLevels sa' = tsiSensorLevels sb' /\
    tsiBuffer sa' = tsiBuffer st /\
    tsiSensorFlags sa' = tsiSensorFlags st /\
    tsiTaskState sa' = tsiTaskState st /\
    count_posts (new_events st sa') = 0%nat.
Proof.
  intros Hne Hl1 Hl2.
  pose proof (TSIChCalibration_Ok ch1 data1 st l1 Hl1) as Ha.
  pose proof (TSIChCalibration_Ok ch2 data2 st l2 Hl2) as Hb.
  assert (Hl2a : forall sa, TSIChCalibration ch1 data1 st = Ok sa ->
                   tsiSensorLevels sa !! Z.to_nat ch2 = Some l2).
  { intros sa Hsa. rewrite <- Hl2.
    apply (TSIChCalibration_other ch1 data1 st sa ch2 Hsa). congruence. }
  assert (Hl1b : forall sb, TSIChCalibration ch2 data2 st = Ok sb ->
                   tsiSensorLevels sb !! Z.to_nat ch1 = Some l1).
  { intros sb Hsb. rewrite <- Hl1.
    apply (TSIChCalibration_other ch2 data2 st sb ch1 Hsb). congruence. }
  pose proof (TSIChCalibration_Ok ch2 data2 _ l2 (Hl2a _ Ha)) as Ha'.
  pose proof (TSIChCalibration_Ok ch1 data1 _ l1 (Hl1b _ Hb)) as Hb'.
  do 4 eexists.
  split; [exact Ha |]. split; [exact Ha' |].
  split; [exact Hb |]. split; [exact Hb' |].
  split; [simpl; apply list_insert_insert_ne; congruence |].
  destruct (TSIChCalibration_frame _ _ _ _ Ha) as (Hb1 & Hf1 & Hs1 & _).
  destruct (TSIChCalibration_frame _ _ _ _ Ha') as (Hb2 & Hf2 & Hs2 & _).
  split; [congruence |]. split; [congruence |]. split; [congruence |].
  rewrite (new_events_app st _
             [EvStartScan ch1; EvScanRead ch1 (raw_count data1);
              EvStartScan ch2; EvScanRead ch2 (raw_count data2)]).
  - reflexivity.
  - simpl. now rewrite <- ?app_assoc.
Qed.

Lemma TSIChCalibration_commutes_witness :
  Z.to_nat 12 <> Z.to_nat 3 /\
  tsiSensorLevels example_idle !! Z.to_nat 12 = Some example_level /\
  tsiSensorLevels example_idle !! Z.to_nat 3 = Some zero_level /\
  exists sa sa' sb sb',
    @TSIChCalibration example_board 12 1500 example_idle = Ok sa /\
    @TSIChCalibration example_board 3 700 sa = Ok sa' /\
    @TSIChCalibration example_board 3 700 example_idle = Ok sb /\
    @TSIChCalibration example_board 12 1500 sb = Ok sb' /\
    tsiSensorLevels sa' = tsiSensorLevels sb'.
Proof.
  assert (Hne : Z.to_nat 12 <> Z.to_nat 3) by (simpl; lia).
  split; [exact Hne |]. split; [reflexivity |]. split; [reflexivity |].
  destruct (@TSIChCalibration_commutes example_board 12 3 1500 700 example_idle
              example_level zero_level Hne eq_refl eq_refl)
    as (sa & sa' & sb & sb' & Ha & Ha' & Hb & Hb' & Hlv & _).
  exists sa, sa', sb, sb'. auto.
Defined.

(** X11.  After an initialisation that went through, from clear
    flags, the first period of the scanning task processes pad 1; when its
    reading is the count that the calibration of pad 1 took, pad 1 is not
    flagged as long as baseline + 0x0400 stays below 2^16, and is flagged
    as touched when that sum reaches 2^16, the 16-bit threshold having
    wrapped below the baseline. *)
Theorem TSIInit_first_period_touch_iff_wrap {board : Board}
    fuel data1 data2 sem_err data st :
  board_ok board ->
  BRD_PAD1_CH <> BRD_PAD2_CH ->
  levels_ok st ->
  tsiSensorFlags st = 0 ->
  tsiTaskState st = PROC1START2 ->
  raw_count data = raw_count data1 ->
  exists st1 st2,
    TSIInit (S fuel) data1 data2 sem_err OS_ERR_NONE st = Ok st1 /\
    TSITask_period data st1 = Ok st2 /\
    processed_channels (new_events st1 st2) = [BRD_PAD1_CH] /\
    tsiSensorFlags st2 =
      (if 2 ^ 16 <=? raw_count data1 + E1_TOUCH_OFFSET
       then 2 ^ BRD_PAD1_CH else 0).
Proof.
  intros Hb Hne Hlev Hf Hs Hsame.
  destruct (TSIInit_result fuel data1 data2 sem_err st Hb Hne Hlev)
    as (st1 & Hinit & Hl1 & _ & _ & _ & _ & Hflags & Hstate & _).
  assert (Hs1 : tsiTaskState st1 = PROC1START2) by congruence.
  destruct (TSITask_period_proc1 data st1 _ Hl1 Hs1)
    as (sp & st2 & posts & Hproc & Hrun & -> & Hposts & Hlog).
  exists st1. eexists. split; [exact Hinit |]. split; [exact Hrun |].
  split.
  { rewrite (new_events_app _ _ _ Hlog).
    destruct Hposts as [-> | ->]; reflexivity. }
  destruct (tsiProcScan_fields _ _ (tsiStartScan BRD_PAD1_CH st1) _ _ Hl1 Hproc)
    as (_ & _ & Hw).
  assert (Hch : 0 <= BRD_PAD1_CH < 16)
    by (destruct Hb as [Hp1 _]; unfold MAX_NUM_ELECTRODES in Hp1; exact Hp1).
  change (tsiSensorFlags (set_task_state PROC2START1
                            (tsiStartScan BRD_PAD2_CH sp)))
    with (tsiSensorFlags sp).
  rewrite Hw.
  change (tsiSensorFlags (tsiStartScan BRD_PAD1_CH st1))
    with (tsiSensorFlags st1).
  rewrite Hflags, Hf, working_flags_clear by exact Hch.
  simpl threshold. rewrite Hsame.
  pose proof (to_INT16U_range (Z.land data1 TSI_DATA_TSICNT_MASK)) as Hraw.
  fold (raw_count data1) in Hraw. unfold E1_TOUCH_OFFSET in *.
  destruct (Z.leb_spec (2 ^ 16) (raw_count data1 + 1024)) as [Hwrap | Hfit].
  - replace ((raw_count data1 + 1024) mod 2 ^ 16)
      with (raw_count data1 + 1024 - 2 ^ 16).
    + replace (raw_count data1 + 1024 - 2 ^ 16 <? raw_count data1) with true
        by (symmetry; apply Z.ltb_lt; lia).
      reflexivity.
    + symmetry. rewrite <- (Z.mod_add _ (-1) (2 ^ 16)) by lia.
      apply Z.mod_small. lia.
  - rewrite Z.mod_small by lia.
    replace (raw_count data1 + 1024 <? raw_count data1) with false
      by (symmetry; apply Z.ltb_ge; lia).
    reflexivity.
Qed.

Lemma TSIInit_first_period_touch_iff_wrap_witness :
  board_ok example_board /\
  @BRD_PAD1_CH example_board <> @BRD_PAD2_CH example_board /\
  levels_ok initial_state /\
  tsiSensorFlags initial_state = 0 /\
  tsiTaskState initial_state = PROC1START2 /\
  @raw_count example_board 0xFFFF = @raw_count example_board 0xFFFF /\
  exists st1 st2,
    @TSIInit example_board 1 0xFFFF 1024 OS_ERR_NONE OS_ERR_NONE initial_state =
      Ok st1 /\
    @TSITask_period example_board 0xFFFF st1 = Ok st2 /\
    tsiSensorFlags st2 = 4096.
Proof.
  assert (Hb : board_ok example_board)
    by (unfold board_ok, MAX_NUM_ELECTRODES; simpl; lia).
  assert (Hne : @BRD_PAD1_CH example_board <> @BRD_PAD2_CH example_board)
    by (simpl; lia).
  split; [exact Hb |]. split; [exact Hne |]. split; [reflexivity |].
  split; [reflexivity |]. split; [reflexivity |]. split; [reflexivity |].
  destruct (@TSIInit_first_period_touch_iff_wrap example_board 0 0xFFFF 1024
              OS_ERR_NONE 0xFFFF initial_state Hb Hne initial_state_levels_ok
              eq_refl eq_refl eq_refl)
    as (st1 & st2 & Hinit & Hrun & _ & Hflags).
  exists st1, st2. split; [exact Hinit |]. split; [exact Hrun |].
  rewrite Hflags. reflexivity.
Defined.

(** ** Scan starts and recovery of the state variable *)

Section Starts.
Context {board : Board}.

Lemma TSITask_run_starts datas : forall st k,
  board_ok board -> levels_ok st ->
  (tsiTaskState st = PROC1START2 /\ Nat.odd k = true) \/
  (tsiTaskState st = PROC2START1 /\ Nat.odd k = false) ->
  exists st' evs,
    TSITask datas st = Ok st' /\
    io_log st' = io_log st ++ evs /\
    started_channels evs =
      flat_map (fun p => [BRD_PAD1_CH;
                          if Nat.odd p then BRD_PAD2_CH else BRD_PAD1_CH])
               (seq k (length datas)).
Proof.
  induction datas as [| data rest IH]; intros st k Hb Hlev Hk.
  - exists st, []. split; [reflexivity |]. split; [now rewrite app_nil_r |].
    reflexivity.
  - destruct Hb as [Hp1 Hp2].
    destruct (levels_ok_lookup st _ Hlev Hp1) as [l1 Hl1].
    destruct (levels_ok_lookup st _ Hlev Hp2) as [l2 Hl2].
    assert (Hstep : exists st1 e1,
               TSITask_period data st = Ok st1 /\
               io_log st1 = io_log st ++ e1 /\
               started_channels e1 =
                 [BRD_PAD1_CH; if Nat.odd k then BRD_PAD2_CH else BRD_PAD1_CH] /\
               ((tsiTaskState st1 = PROC1START2 /\ Nat.odd (S k) = true) \/
                (tsiTaskState st1 = PROC2START1 /\ Nat.odd (S k) = false))).
    { rewrite Nat.odd_succ, <- Nat.negb_odd.
      destruct Hk as [[Hs Hodd] | [Hs Hodd]]; rewrite Hodd.
      - destruct (TSITask_period_proc1 data st l1 Hl1 Hs)
          as (st2 & st1 & posts & _ & Hrun & -> & Hposts & Hlog).
        eexists. eexists. split; [exact Hrun |]. split; [exact Hlog |].
        split; [| right; split; reflexivity].
        destruct Hposts as [-> | ->]; reflexivity.
      - destruct (TSITask_period_proc2 data st l2 Hl2 Hs)
          as (st2 & st1 & posts & _ & Hrun & -> & Hposts & Hlog).
        eexists. eexists. split; [exact Hrun |]. split; [exact Hlog |].
        split; [| left; split; reflexivity].
        destruct Hposts as [-> | ->]; reflexivity. }
    destruct Hstep as (st1 & e1 & Hrun & Hlog1 & Hst1 & Hk1).
    pose proof (levels_ok_period _ _ _ (conj Hp1 Hp2) Hlev Hrun) as Hlev1.
    destruct (IH st1 (S k) (conj Hp1 Hp2) Hlev1 Hk1)
      as (st' & e2 & Hrest & Hlog2 & Hst2).
    exists st', (e1 ++ e2). split.
    { simpl. rewrite Hrun. simpl. exact Hrest. }
    split; [rewrite Hlog2, Hlog1; now rewrite app_assoc |].
    rewrite started_channels_app, Hst1, Hst2. reflexivity.
Qed.

End Starts.

(** X12.  Over any run of periods from [PROC1START2], with both pads
    inside the level table, every period starts two scans: pad 1 and then
    pad 2 in the odd periods, pad 1 twice in the even ones, so that pad 1
    is started three times for each start of pad 2. *)
Theorem TSITask_scan_starts {board : Board} datas st :
  board_ok board ->
  levels_ok st ->
  tsiTaskState st = PROC1START2 ->
  exists st',
    TSITask datas st = Ok st' /\
    started_channels (new_events st st') =
      flat_map (fun p => [BRD_PAD1_CH;
                          if Nat.odd p then BRD_PAD2_CH else BRD_PAD1_CH])
               (seq 1 (length datas)).
Proof.
  intros Hb Hlev Hs.
  destruct (TSITask_run_starts datas st 1 Hb Hlev (or_introl (conj Hs eq_refl)))
    as (st' & evs & Hrun & Hlog & Hst).
  exists st'. rewrite (new_events_app _ _ _ Hlog). auto.
Qed.

Lemma TSITask_scan_starts_witness :
  board_ok example_board /\
  levels_ok example_idle /\
  tsiTaskState example_idle = PROC1START2 /\
  exists st',
    @TSITask example_board [100; 100] example_idle = Ok st' /\
    started_channels (new_events example_idle st') = [12; 11; 12; 12].
Proof.
  assert (Hb : board_ok example_board)
    by (unfold board_ok, MAX_NUM_ELECTRODES; simpl; lia).
  split; [exact Hb |]. split; [reflexivity |]. split; [reflexivity |].
  exact (@TSITask_scan_starts example_board [100; 100] example_idle
           Hb eq_refl eq_refl).
Defined.

(** X13.  When the state variable holds neither enumerator, the first
    period processes nothing and the run then goes on as a run from
    [PROC1START2]: pad 1 is processed in the second period, pad 2 in the
    third, and so on. *)
Theorem TSITask_recovers_from_invalid_state {board : Board} data rest st :
  board_ok board ->
  levels_ok st ->
  tsiTaskState st <> PROC1START2 ->
  tsiTaskState st <> PROC2START1 ->
  exists st',
    TSITask (data :: rest) st = Ok st' /\
    processed_channels (new_events st st') =
      map electrode_of_period (seq 1 (length rest)).
Proof.
  intros Hb Hlev H1 H2.
  destruct (TSITask_period_default data st H1 H2) as [Hper _].
  pose proof (levels_ok_period _ _ _ Hb Hlev Hper) as Hlev1.
  destruct (TSITask_run rest _ 1 Hb Hlev1 (or_introl (conj eq_refl eq_refl)))
    as (st' & evs & Hrun & Hlog & Hproc & _).
  exists st'. split.
  - simpl. rewrite Hper. simpl. exact Hrun.
  - rewrite (new_events_app st st' (EvStartScan BRD_PAD1_CH :: evs)).
    + exact Hproc.
    + rewrite Hlog. simpl. now rewrite <- app_assoc.
Qed.

Lemma TSITask_recovers_from_invalid_state_witness :
  board_ok example_board /\
  levels_ok (set_task_state 7 example_idle) /\
  tsiTaskState (set_task_state 7 example_idle) <> PROC1START2 /\
  tsiTaskState (set_task_state 7 example_idle) <> PROC2START1 /\
  exists st',
    @TSITask example_board [100; 100; 100] (set_task_state 7 example_idle) =
      Ok st' /\
    processed_channels (new_events (set_task_state 7 example_idle) st') =
      [12; 11].
Proof.
  assert (Hb : board_ok example_board)
    by (unfold board_ok, MAX_NUM_ELECTRODES; simpl; lia).
  assert (H1 : tsiTaskState (set_task_state 7 example_idle) <> PROC1START2)
    by (simpl; unfold PROC1START2; lia).
  assert (H2 : tsiTaskState (set_task_state 7 example_idle) <> PROC2START1)
    by (simpl; unfold PROC2START1; lia).
  split; [exact Hb |]. split; [reflexivity |]. split; [exact H1 |].
  split; [exact H2 |].
  exact (@TSITask_recovers_from_invalid_state example_board 100 [100; 100]
           (set_task_state 7 example_idle) Hb eq_refl H1 H2).
Defined.

(** X14.  After an initialisation that went through, from clear flags
    and with thresholds that did not wrap, a run of the scanning task
    whose readings stay at or below both calibration readings plus 0x0400
    posts nothing: the flags stay clear and the buffer stays 0 with no
    notification pending. *)
Theorem TSIInit_then_untouched_run {board : Board}
    fuel data1 data2 sem_err datas st :
  board_ok board ->
  BRD_PAD1_CH <> BRD_PAD2_CH ->
  levels_ok st ->
  tsiSensorFlags st = 0 ->
  raw_count data1 + E1_TOUCH_OFFSET < 2 ^ 16 ->
  raw_count data2 + E2_TOUCH_OFFSET < 2 ^ 16 ->
  Forall (fun data => raw_count data <= raw_count data1 + E1_TOUCH_OFFSET /\
                      raw_count data <= raw_count data2 + E2_TOUCH_OFFSET)
         datas ->
  exists st1 st2,
    TSIInit (S fuel) data1 data2 sem_err OS_ERR_NONE st = Ok st1 /\
    TSITask datas st1 = Ok st2 /\
    count_posts (new_events st1 st2) = 0%nat /\
    tsiSensorFlags st2 = 0 /\
    tsiBuffer st2 = mkBuffer 0 (mkSem 0).
Proof.
  intros Hb Hne Hlev Hf Hfit1 Hfit2 Hall.
  destruct (TSIInit_result fuel data1 data2 sem_err st Hb Hne Hlev)
    as (st1 & Hinit & Hl1 & Hl2 & _ & _ & Hbuf & Hflags & _).
  pose proof (to_INT16U_range (Z.land data1 TSI_DATA_TSICNT_MASK)) as Hr1.
  pose proof (to_INT16U_range (Z.land data2 TSI_DATA_TSICNT_MASK)) as Hr2.
  fold (raw_count data1) in Hr1. fold (raw_count data2) in Hr2.
  assert (Ht1 : (raw_count data1 + E1_TOUCH_OFFSET) mod 2 ^ 16 =
                raw_count data1 + E1_TOUCH_OFFSET)
    by (apply Z.mod_small; unfold E1_TOUCH_OFFSET in *; lia).
  assert (Ht2 : (raw_count data2 + E2_TOUCH_OFFSET) mod 2 ^ 16 =
                raw_count data2 + E2_TOUCH_OFFSET)
    by (apply Z.mod_small; unfold E2_TOUCH_OFFSET in *; lia).
  rewrite Ht1 in Hl1. rewrite Ht2 in Hl2.
  destruct (TSITask_quiet datas st1 _ _ Hl1 Hl2) as
    (st2 & evs & Hrun & Hlog & Hc & Hf2 & Hb2).
  - congruence.
  - now rewrite Hbuf.
  - exact Hall.
  - exists st1, st2. split; [exact Hinit |]. split; [exact Hrun |].
    rewrite (new_events_app _ _ _ Hlog). split; [exact Hc |].
    split; [exact Hf2 | congruence].
Qed.

Lemma TSIInit_then_untouched_run_witness :
  board_ok example_board /\
  @BRD_PAD1_CH example_board <> @BRD_PAD2_CH example_board /\
  levels_ok initial_state /\
  tsiSensorFlags initial_state = 0 /\
  exists st1 st2,
    @TSIInit example_board 1 1024 1024 OS_ERR_NONE OS_ERR_NONE initial_state =
      Ok st1 /\
    @TSITask example_board [1024; 2048; 0; 1500] st1 = Ok st2 /\
    count_posts (new_events st1 st2) = 0%nat.
Proof.
  assert (Hb : board_ok example_board)
    by (unfold board_ok, MAX_NUM_ELECTRODES; simpl; lia).
  assert (Hne : @BRD_PAD1_CH example_board <> @BRD_PAD2_CH example_board)
    by (simpl; lia).
  split; [exact Hb |]. split; [exact Hne |]. split; [reflexivity |].
  split; [reflexivity |].
  destruct (@TSIInit_then_untouched_run example_board 0 1024 1024 OS_ERR_NONE
              [1024; 2048; 0; 1500] initial_state Hb Hne
              initial_state_levels_ok eq_refl)
    as (st1 & st2 & Hinit & Hrun & Hc & _).
  - vm_compute. reflexivity.
  - vm_compute. reflexivity.
  - repeat constructor; vm_compute; discriminate.
  - exists st1, st2. auto.
Defined.

(** ** When initialisation returns *)

Section InitReturns.
Context {board : Board}.

Lemma TSIChCalibration_total channel data st :
  levels_ok st -> 0 <= channel < MAX_NUM_ELECTRODES ->
  exists st', TSIChCalibration channel data st = Ok st' /\ levels_ok st'.
Proof.
  intros Hlev Hch.
  destruct (levels_ok_lookup st channel Hlev Hch) as [l Hl].
  pose proof (TSIChCalibration_Ok channel data st l Hl) as Hrun.
  eexists. split; [exact Hrun |].
  exact (TSIChCalibration_levels_ok _ _ _ _ Hlev Hrun).
Qed.

Lemma TSIInit_goes_through fuel data1 data2 sem_err st :
  board_ok board -> levels_ok st ->
  exists st', TSIInit (S fuel) data1 data2 sem_err OS_ERR_NONE st = Ok st'.
Proof.
  intros [Hp1 Hp2] Hlev.
  destruct (levels_ok_lookup st _ Hlev Hp1) as [l1 Hl1].
  unfold TSIInit, level_at at 1. rewrite Hl1. cbn [bind].
  match goal with |- context [level_at BRD_PAD2_CH ?s] =>
    assert (Hlev1 : levels_ok s)
      by (unfold levels_ok; simpl; now rewrite length_insert);
    destruct (levels_ok_lookup s _ Hlev1 Hp2) as [l2 Hl2];
    unfold level_at; rewrite Hl2; cbn [bind]
  end.
  match goal with |- context [TSIChCalibration BRD_PAD1_CH data1 ?s] =>
    assert (Hlev2 : levels_ok s)
      by (unfold levels_ok; simpl; now rewrite !length_insert);
    destruct (TSIChCalibration_total BRD_PAD1_CH data1 s Hlev2 Hp1)
      as (st3 & -> & Hlev3)
  end.
  cbn [bind].
  destruct (TSIChCalibration_total BRD_PAD2_CH data2 st3 Hlev3 Hp2)
    as (st4 & -> & _).
  cbn [bind]. eexists. reflexivity.
Qed.

End InitReturns.

(** X15.  With both pads inside the level table, [TSIInit] returns
    exactly when [OSTaskCreate] reports no error: one turn of the trap is
    then enough, and with any other status no number of turns lets it
    return.  The status of [OSSemCreate] plays no part. *)
Theorem TSIInit_returns_iff_task_created {board : Board}
    data1 data2 sem_err task_err st :
  board_ok board ->
  levels_ok st ->
  (exists fuel st', TSIInit fuel data1 data2 sem_err task_err st = Ok st') <->
  task_err = OS_ERR_NONE.
Proof.
  intros Hb Hlev. split.
  - intros (fuel & st' & Hrun).
    destruct task_err as [| | code]; [reflexivity | |]; exfalso;
      revert Hrun; apply TSIInit_task_error_never_returns; discriminate.
  - intros ->.
    destruct (TSIInit_goes_through 0 data1 data2 sem_err st Hb Hlev)
      as [st' Hrun].
    exists 1%nat, st'. exact Hrun.
Qed.

Lemma TSIInit_returns_iff_task_created_witness :
  board_ok example_board /\
  levels_ok initial_state /\
  ((exists fuel st',
      @TSIInit example_board fuel 1024 1024 OS_ERR_NONE OS_ERR_TIMEOUT
        initial_state = Ok st') <->
   OS_ERR_TIMEOUT = OS_ERR_NONE).
Proof.
  assert (Hb : board_ok example_board)
    by (unfold board_ok, MAX_NUM_ELECTRODES; simpl; lia).
  split; [exact Hb |]. split; [reflexivity |].
  exact (@TSIInit_returns_iff_task_created example_board 1024 1024 OS_ERR_NONE
           OS_ERR_TIMEOUT initial_state Hb initial_state_levels_ok).
Defined.
